(** * pypff/io.py: readers for PANOSETI pff data and housekeeping files

    A shallow embedding of [pypff/io.py] (Python 3, numpy) and the
    properties its specification states about it.

    Conventions of the embedding:
    - a Python call that may raise returns a [result]; the exception
      classes are those CPython raises at that point;
    - a Python [dict] is an insertion-ordered association list;
    - [bytes] are [list byte], [str] is [string], [int] is [Z];
    - the functions of the Python standard library the module calls
      ([json.loads], [int], [float], [datetime.strptime]) are the fields
      of the class [PyRuntime]; the sibling module [pixelmap], which the
      file imports, is the class [PixelMap]. *)

From Stdlib Require Import ZArith String Ascii Strings.Byte Bool Lia.
From Stdlib Require Import DecimalString DecimalPos DecimalZ Permutation List.
Import ListNotations.

Local Open Scope Z_scope.

(** ** Python values and exceptions *)

Inductive exn : Type :=
| KeyError (k : string)
| IndexError
| ValueError
| TypeError
| AttributeError
| ZeroDivisionError.

Inductive result (A : Type) : Type :=
| Ok (a : A)
| Raise (e : exn).

Arguments Ok {A} a.
Arguments Raise {A} e.

Definition bind {A B : Type} (r : result A) (f : A -> result B) : result B :=
match r with
| Ok a => f a
| Raise e => Raise e
end.

Notation "x <- e ;; f" := (bind e (fun x => f))
  (at level 61, e at next level, right associativity).
Notation "' p <- e ;; f" := (bind e (fun x => match x with p => f end))
  (at level 61, p pattern, e at next level, right associativity).

(** [l[i]] for a list and an index [i >= 0] written as a literal. *)
Definition getitem {A : Type} (l : list A) (i : nat) : result A :=
match nth_error l i with
| Some a => Ok a
| None => Raise IndexError
end.

(** [s.split(sep)] for a one-character separator. *)
Fixpoint split (sep : ascii) (s : string) : list string :=
match s with
| EmptyString => [EmptyString]
| String c s' =>
    if Ascii.eqb c sep then EmptyString :: split sep s'
    else match split sep s' with
         | [] => [String c EmptyString]
         | p :: ps => String c p :: ps
         end
end.

(** A float is kept as its IEEE-754 binary64 bit pattern. *)
Definition pyfloat : Type := Z.

(** What [json.loads] returns: None, bool, int, float, str, list, dict. *)
#[warnings="-register-all"]
Inductive JSON : Type :=
| JNull
| JBool (b : bool)
| JInt (z : Z)
| JFloat (f : pyfloat)
| JStr (s : string)
| JArr (l : list JSON)
| JObj (items : list (string * JSON)).

(** ** dict: insertion-ordered, keys are strings *)

Definition dict (V : Type) : Type := list (string * V).

Definition keys {V : Type} (d : dict V) : list string := map fst d.

Fixpoint dict_get {V : Type} (k : string) (d : dict V) : option V :=
match d with
| [] => None
| (k', v) :: t => if String.eqb k' k then Some v else dict_get k t
end.

Definition dict_mem {V : Type} (k : string) (d : dict V) : bool :=
match dict_get k d with
| Some _ => true
| None => false
end.

(** [d[k] = v]: replaces in place, or appends a new key at the end. *)
Fixpoint dict_set {V : Type} (k : string) (v : V) (d : dict V) : dict V :=
match d with
| [] => [(k, v)]
| (k', v') :: t =>
    if String.eqb k' k then (k', v) :: t else (k', v') :: dict_set k v t
end.

(** [d[k]] *)
Definition dict_lookup {V : Type} (k : string) (d : dict V) : result V :=
match dict_get k d with
| Some v => Ok v
| None => Raise (KeyError k)
end.

(** [d[k].append(x)] *)
Definition dict_append {V : Type} (k : string) (x : V) (d : dict (list V))
  : result (dict (list V)) :=
l <- dict_lookup k d ;;
Ok (dict_set k (l ++ [x]) d).

(** ** The Python runtime the module runs on *)

Record datetime : Type := mkDatetime {
  dt_year : Z; dt_month : Z; dt_day : Z;
  dt_hour : Z; dt_minute : Z; dt_second : Z
}.

Class PyRuntime : Type := {
  (** [datetime.datetime.strptime(s, '%Y-%m-%dT%H:%M:%SZ')]; None is ValueError *)
  strptime : string -> option datetime;
  (** [int(s)] for a str; None is ValueError *)
  int_of_str : string -> option Z;
  (** [json.loads(b)] for a bytes line; None is any exception it raises *)
  json_loads : list byte -> option JSON;
  (** [json.loads(b.decode('utf-8'))]; None is UnicodeDecodeError or
      JSONDecodeError, both subclasses of ValueError *)
  json_loads_utf8 : list byte -> option JSON;
  (** [int(v)] for a decoded JSON value; None is any exception *)
  py_int : JSON -> option Z;
  (** [float(v)] for a decoded JSON value; None is any exception *)
  py_float : JSON -> option pyfloat
}.

(** The module [pixelmap] imported by io.py. *)
Class PixelMap : Type := {
  pixel_loc : Type;
  (** [pixelmap.get_pixel_loc(quabo, ver, pixel)] *)
  get_pixel_loc : Z -> string -> Z -> result pixel_loc;
  (** [pixelmap.get_data_index(quabo, ver, loc)] *)
  get_data_index : Z -> string -> pixel_loc -> result Z
}.

Definition of_option {A : Type} (e : exn) (o : option A) : result A :=
match o with
| Some a => Ok a
| None => Raise e
end.

(** A [for] loop whose body may raise, threading the mutated object. *)
Fixpoint foldM {A S : Type} (f : S -> A -> result S) (l : list A) (s : S)
  : result S :=
match l with
| [] => Ok s
| a :: t => s' <- f s a ;; foldM f t s'
end.

(** ** Python numbers: [/] is true division and always yields a float

    The quotient is kept exact.  Python raises OverflowError when it is
    too large for a float; that case is left out of [truediv], and the
    statements below that depend on it bound the operands. *)

Inductive pynum : Type :=
| PyInt (z : Z)
| PyFloat (n d : Z).   (* the float nearest to the quotient n/d, d <> 0 *)

Definition truediv (a b : Z) : result pynum :=
if b =? 0 then Raise ZeroDivisionError else Ok (PyFloat a b).

(** [int(x)]: truncation toward zero.  For [|n|, |d| < 2^53] the rounded
    quotient lies strictly between the same two integers as [n/d]. *)
Definition int_of_num (x : pynum) : Z :=
match x with
| PyInt z => z
| PyFloat n d => Z.quot n d
end.

(** ** Binary files *)

(** [f.read(n)] on a file just opened in mode 'rb'. *)
Definition file_read (file : list byte) (n : pynum) : result (list byte) :=
match n with
| PyFloat _ _ => Raise TypeError
| PyInt z =>
    if z =? -1 then Ok file
    else if z <? 0 then Raise ValueError
    else Ok (firstn (Z.to_nat z) file)
end.

Definition is_LF (b : byte) : bool := Byte.eqb b x0a.
Definition is_CR (b : byte) : bool := Byte.eqb b x0d.

(** [f.readlines()] in binary mode: lines end at LF, which is kept. *)
Fixpoint readlines_from (cur : list byte) (l : list byte) : list (list byte) :=
match l with
| [] => match cur with [] => [] | _ => [rev cur] end
| c :: t =>
    if is_LF c then rev (c :: cur) :: readlines_from [] t
    else readlines_from (c :: cur) t
end.

Definition readlines (file : list byte) : list (list byte) :=
readlines_from [] file.

(** [b.splitlines()] for bytes: breaks at LF, CR and CR LF, dropped. *)
Fixpoint splitlines_from (cur : list byte) (l : list byte) : list (list byte) :=
match l with
| [] => match cur with [] => [] | _ => [rev cur] end
| c :: t =>
    if is_LF c then rev cur :: splitlines_from [] t
    else if is_CR c then
      match t with
      | c' :: t' =>
          if is_LF c' then rev cur :: splitlines_from [] t'
          else rev cur :: splitlines_from [] t
      | [] => rev cur :: splitlines_from [] t
      end
    else splitlines_from (c :: cur) t
end.

Definition splitlines (b : list byte) : list (list byte) :=
splitlines_from [] b.

(** ** numpy *)

Inductive np_dtype : Type := int16 | uint16 | uint8.

Definition byte_val (b : byte) : Z := Z.of_N (Byte.to_N b).

Definition byte_of (z : Z) : byte :=
match Byte.of_N (Z.to_N (z mod 256)) with
| Some b => b
| None => x00
end.

(** Two bytes, little endian, as a 16-bit integer. *)
Definition dec16 (signed : bool) (lo hi : byte) : Z :=
let u := byte_val lo + 256 * byte_val hi in
if signed && (32768 <=? u) then u - 65536 else u.

Definition enc16 (z : Z) : list byte := [byte_of z; byte_of (z / 256)].

Fixpoint frombuffer16 (signed : bool) (b : list byte) : result (list Z) :=
match b with
| [] => Ok []
| [_] => Raise ValueError
| lo :: hi :: t => r <- frombuffer16 signed t ;; Ok (dec16 signed lo hi :: r)
end.

(** [np.frombuffer(b, dtype=t)]: a 1-D array over the whole buffer. *)
Definition frombuffer (b : list byte) (t : np_dtype) : result (list Z) :=
match t with
| int16 => frombuffer16 true b
| uint16 => frombuffer16 false b
| uint8 => Ok (map byte_val b)
end.

(** The 16-bit view of a buffer of even length, without the check. *)
Fixpoint view16 (signed : bool) (b : list byte) : list Z :=
match b with
| lo :: hi :: t => dec16 signed lo hi :: view16 signed t
| _ => []
end.

(** A 2-D array: shape [(length rows, ncols)]. *)
Record ndarray2 : Type := mkArr { ncols : nat; rows : list (list Z) }.

Fixpoint split_rows (r n : nat) (flat : list Z) : list (list Z) :=
match r with
| O => []
| S r' => firstn n flat :: split_rows r' n (skipn n flat)
end.

(** [a.shape = (-1, c)] on a 1-D array. *)
Definition reshape (flat : list Z) (c : Z) : result ndarray2 :=
if c <=? 0 then Raise ValueError
else
  let n := Z.to_nat c in
  if (length flat mod n =? 0)%nat
  then Ok (mkArr n (split_rows (length flat / n) n flat))
  else Raise ValueError.

(** A slice bound [i] on an axis of length [n]. *)
Definition slice_bound (i : Z) (n : nat) : nat :=
if i <? 0 then Z.to_nat (Z.max (i + Z.of_nat n) 0)
else Nat.min (Z.to_nat i) n.

(** [a[:, start:stop]]; [stop = None] is [a[:, start:]]. *)
Definition slice_cols (a : ndarray2) (start : Z) (stop : option Z) : ndarray2 :=
let s := slice_bound start (ncols a) in
let e := match stop with
         | Some j => slice_bound j (ncols a)
         | None => ncols a
         end in
mkArr (e - s) (map (fun r => firstn (e - s) (skipn s r)) (rows a)).

(** [a[:, ind]] for an integer [ind]. *)
Definition column (a : ndarray2) (ind : Z) : result (list Z) :=
let n := Z.of_nat (ncols a) in
if (- n <=? ind) && (ind <? n)
then Ok (map (fun r => nth (Z.to_nat (if ind <? 0 then ind + n else ind)) r 0)
             (rows a))
else Raise IndexError.

(** [a.tobytes()] for a 2-D array of the given dtype, in C order. *)
Definition tobytes (t : np_dtype) (a : ndarray2) : list byte :=
flat_map (flat_map (fun z => match t with
                             | uint8 => [byte_of z]
                             | _ => enc16 z
                             end)) (rows a).

(** ** io.py *)

Definition QUABO_DIM : Z := 16.

(** The two renames, [TEMP1] to [DET_TEMP] and [TEMP2] to [FPGA_TEMP],
    as the two consecutive [if]s of the source. *)
Definition rename_temp (k : string) : string :=
let k := if String.eqb k "TEMP1" then "DET_TEMP"%string else k in
if String.eqb k "TEMP2" then "FPGA_TEMP"%string else k.

(** [_gen_dict_template(d)] for a dict [d] with the given items. *)
Definition _gen_dict_template (d : list (string * JSON)) : dict (list JSON) :=
fold_left (fun template k => dict_set (rename_temp k) [] template)
          (map fst d) [].

Definition hashable (v : JSON) : bool :=
match v with
| JArr _ | JObj _ => false
| _ => true
end.

(** [_gen_dict_template(v)] for any decoded value.  Only a dict gives a
    template that is used: [for k in d] raises TypeError on None, bool,
    int and float, [template[k] = []] raises TypeError on an unhashable
    list element, and for a str or a list of hashable values both
    callers go on to [v.items()], which raises AttributeError before the
    template is read. *)
Definition template_of (v : JSON) : result (dict (list JSON)) :=
match v with
| JObj items => Ok (_gen_dict_template items)
| JStr _ => Raise AttributeError
| JArr l => if forallb hashable l then Raise AttributeError else Raise TypeError
| _ => Raise TypeError
end.

(** [v.items()] *)
Definition items_of (v : JSON) : result (list (string * JSON)) :=
match v with
| JObj items => Ok items
| _ => Raise AttributeError
end.

Module hkpff.

Record t : Type := mk {
  fn : string;
  hk_info : dict (dict (list JSON))
}.

Definition __init__ (fn : string) : t := mk fn [].

(** [key, = hk.keys()], together with [hk[key]]. *)
Definition single_key (hk : JSON) : result (string * JSON) :=
match hk with
| JObj [(key, body)] => Ok (key, body)
| JObj _ => Raise ValueError
| _ => Raise AttributeError
end.

(** The value appended for [v]: [int(v)], else [float(v)], else [v]. *)
Definition convert `{PyRuntime} (v : JSON) : JSON :=
match py_int v with
| Some z => JInt z
| None => match py_float v with
          | Some f => JFloat f
          | None => v
          end
end.

(** Body of [for k,v in hk[key].items()].  A missing [k] raises KeyError
    inside both [try] blocks, which swallow it, and again in the last
    [except] branch, which does not. *)
Definition hk_field `{PyRuntime} (key : string)
  (info : dict (dict (list JSON))) (kv : string * JSON)
  : result (dict (dict (list JSON))) :=
let k := rename_temp (fst kv) in
sub <- dict_lookup key info ;;
sub' <- dict_append k (convert (snd kv)) sub ;;
Ok (dict_set key sub' info).

(** Body of [for hk_str in hk_lines]. *)
Definition hk_line `{PyRuntime} (info : dict (dict (list JSON)))
  (hk_str : list byte) : result (dict (dict (list JSON))) :=
match json_loads hk_str with
| None => Ok info
| Some hk =>
    '(key, body) <- single_key hk ;;
    info1 <- (if negb (dict_mem key info)
              then template <- template_of body ;;
                   Ok (dict_set key template info)
              else Ok info) ;;
    items <- items_of body ;;
    foldM (hk_field key) items info1
end.

(** [readhk(self)]; [file] is the content of the file named [self.fn].
    Returns the object after the call and the returned [self.hk_info]. *)
Definition readhk `{PyRuntime} (self : t) (file : list byte)
  : result (t * dict (dict (list JSON))) :=
info <- foldM hk_line (readlines file) (hk_info self) ;;
Ok (mk (fn self) info, info).

End hkpff.

(** The [pixel] argument of [readpff]: an int or a list. *)
Inductive pixel_arg : Type :=
| PixelInt (i : Z)
| PixelList (l : list Z).

(** [self.data]: the 2-D table, or 1-D once a pixel has been selected. *)
Inductive pydata : Type :=
| Table (a : ndarray2)
| Column (c : list Z).

Module datapff.

Record t : Type := mk {
  fn : string;
  startdt : datetime;
  dp : string;
  bpp : Z;
  module : Z;
  seqno : Z;
  _md_size : Z;
  _pixels : Z;
  _d_size : Z;
  datasize : Z;
  dtype : option np_dtype;     (* None: the attribute was never assigned *)
  dtpye : option np_dtype;
  metadata : dict (list JSON);
  data : option pydata
}.

(** [info[i].split('_')[1]] *)
Definition subfield (info : list string) (i : nat) : result string :=
x <- getitem info i ;;
getitem (split "_" x) 1.

Definition __init__ `{PyRuntime} (fn : string) : result t :=
let info := split "." fn in
startdt_str <- subfield info 0 ;;
startdt <- of_option ValueError (strptime startdt_str) ;;
dp <- subfield info 1 ;;
bpp_str <- subfield info 2 ;;
bpp <- of_option ValueError (int_of_str bpp_str) ;;
module_str <- subfield info 3 ;;
module <- of_option ValueError (int_of_str module_str) ;;
seqno_str <- subfield info 4 ;;
seqno <- of_option ValueError (int_of_str seqno_str) ;;
let '(_md_size, _pixels) :=
  if String.eqb dp "ph256" then (124, 256) else (492, 1024) in
let _d_size := _pixels * bpp in
let datasize := _md_size + _d_size in
let '(dtype, dtpye) :=
  if String.eqb dp "ph256" || String.eqb dp "ph1024" then (Some int16, None)
  else if String.eqb dp "img16" then (None, Some uint16)
  else (Some uint8, None) in
Ok (mk fn startdt dp bpp module seqno _md_size _pixels _d_size datasize
       dtype dtpye [] None).

(** Reading an attribute that may not have been assigned. *)
Definition getattr {A : Type} (a : option A) : result A :=
of_option AttributeError a.

(** Lines 141-145: read the buffer, view it as [self.dtype], reshape. *)
Definition read_table (self : t) (file : list byte) (samples : Z)
  : result ndarray2 :=
buf <- (if samples =? -1 then Ok file
        else n <- truediv (samples * datasize self) (bpp self) ;;
             file_read file n) ;;
ty <- getattr (dtype self) ;;
flat <- frombuffer buf ty ;;
width <- truediv (datasize self) (bpp self) ;;
reshape flat (int_of_num width).

(** Body of [for md_raw in metadataraw.splitlines()]. *)
Definition md_line `{PyRuntime} (metadata : dict (list JSON))
  (md_raw : list byte) : result (dict (list JSON)) :=
md <- of_option ValueError (json_loads_utf8 md_raw) ;;
metadata1 <- (match metadata with
              | [] => template_of md
              | _ => Ok metadata
              end) ;;
items <- items_of md ;;
foldM (fun m kv => dict_append (fst kv) (snd kv) m) items metadata1.

(** The bytes of [metadataraw] for the table [tmp]. *)
Definition metadataraw (self : t) (ty : np_dtype) (tmp : ndarray2)
  : result (list byte) :=
w <- truediv (_md_size self) (bpp self) ;;
Ok (tobytes ty (slice_cols tmp 0 (Some (int_of_num w - 1)))).

(** Lines 140-158: the branch [if self.dp == 'ph256']. *)
Definition read_ph256 `{PyRuntime} (self : t) (file : list byte)
  (samples : Z) (want_metadata : bool) : result t :=
tmp <- read_table self file samples ;;
w <- truediv (_md_size self) (bpp self) ;;
let data := Table (slice_cols tmp (int_of_num w) None) in
md <- (if want_metadata
       then ty <- getattr (dtype self) ;;
            raw <- metadataraw self ty tmp ;;
            foldM md_line (splitlines raw) (metadata self)
       else Ok (metadata self)) ;;
Ok (mk (fn self) (startdt self) (dp self) (bpp self) (module self)
       (seqno self) (_md_size self) (_pixels self) (_d_size self)
       (datasize self) (dtype self) (dtpye self) md (Some data)).

(** Lines 160-168: the column index a [pixel] argument selects. *)
Definition pixel_index `{PixelMap} (pixel : pixel_arg) (quabo : Z)
  (ver : string) : result Z :=
match pixel with
| PixelList l =>
    p0 <- getitem l 0 ;;
    p1 <- getitem l 1 ;;
    let tmp := p0 * QUABO_DIM + p1 in
    loc <- get_pixel_loc quabo ver tmp ;;
    get_data_index quabo ver loc
| PixelInt i => Ok i
end.

(** [pixel != -1] *)
Definition pixel_selected (pixel : pixel_arg) : bool :=
match pixel with
| PixelInt i => negb (i =? -1)
| PixelList _ => true
end.

(** [self.data[:, ind]] *)
Definition select (d : pydata) (ind : Z) : result pydata :=
match d with
| Table a => c <- column a ind ;; Ok (Column c)
| Column _ => Raise IndexError
end.

Definition set_data (self : t) (d : pydata) : t :=
mk (fn self) (startdt self) (dp self) (bpp self) (module self)
   (seqno self) (_md_size self) (_pixels self) (_d_size self)
   (datasize self) (dtype self) (dtpye self) (metadata self) (Some d).

(** [readpff(self, samples, skip, pixel, quabo, ver, metadata)]; [file]
    is the content of the file named [self.fn].  Returns the object
    after the call and the returned pair [(self.data, self.metadata)]. *)
Definition readpff `{PyRuntime} `{PixelMap} (self : t) (file : list byte)
  (samples skip : Z) (pixel : pixel_arg) (quabo : Z) (ver : string)
  (want_metadata : bool) : result (t * (pydata * dict (list JSON))) :=
self1 <- (if String.eqb (dp self) "ph256"
          then read_ph256 self file samples want_metadata
          else Ok self) ;;
self2 <- (if pixel_selected pixel
          then ind <- pixel_index pixel quabo ver ;;
               d <- getattr (data self1) ;;
               d' <- select d ind ;;
               Ok (set_data self1 d')
          else Ok self1) ;;
d <- getattr (data self2) ;;
Ok (self2, (d, metadata self2)).

End datapff.

(** ** The filename schema of the specification

    [<prefix>_<timestamp>.<tag>_<value>.bpp_<int>.module_<int>.seqno_<int>]
    with the timestamp written as [%Y-%m-%dT%H:%M:%SZ].  The source has
    no function that writes a filename; these definitions follow the
    schema, and are what the round trip of the descriptor is stated
    against. *)

Record FileDescriptor : Type := mkDesc {
  fd_startdt : datetime;
  fd_dp : string;
  fd_bpp : Z;
  fd_module : Z;
  fd_seqno : Z
}.

Definition descriptor (self : datapff.t) : FileDescriptor :=
mkDesc (datapff.startdt self) (datapff.dp self) (datapff.bpp self)
       (datapff.module self) (datapff.seqno self).

Definition digit_char (v : Z) : ascii := ascii_of_nat (Z.to_nat (v + 48)).

(** The last [w] decimal digits of [n], in front of [acc]. *)
Fixpoint pad_digits (w : nat) (n : Z) (acc : string) : string :=
match w with
| O => acc
| S w' => pad_digits w' (n / 10) (String (digit_char (n mod 10)) acc)
end.

Definition schema_timestamp (t : datetime) : string :=
pad_digits 4 (dt_year t) (String "-"
 (pad_digits 2 (dt_month t) (String "-"
  (pad_digits 2 (dt_day t) (String "T"
   (pad_digits 2 (dt_hour t) (String ":"
    (pad_digits 2 (dt_minute t) (String ":"
     (pad_digits 2 (dt_second t) "Z")))))))))).

(** An integer in decimal, as [str] writes it. *)
Definition schema_int (z : Z) : string := NilZero.string_of_int (Z.to_int z).

(** A filename of the schema from the text of its seven variable parts. *)
Definition schema_name (prefix timestamp tag value bpp module seqno : string)
  : string :=
(prefix ++ "_" ++ timestamp ++ "." ++ tag ++ "_" ++ value
 ++ ".bpp_" ++ bpp ++ ".module_" ++ module ++ ".seqno_" ++ seqno)%string.

(** The filename a descriptor is rendered to. *)
Definition schema_filename (prefix tag : string) (d : FileDescriptor) : string :=
schema_name prefix (schema_timestamp (fd_startdt d)) tag (fd_dp d)
            (schema_int (fd_bpp d)) (schema_int (fd_module d))
            (schema_int (fd_seqno d)).

Fixpoint no_char (c : ascii) (s : string) : bool :=
match s with
| EmptyString => true
| String c' s' => negb (Ascii.eqb c' c) && no_char c s'
end.

(** A part of a filename holds neither separator. *)
Definition sep_free (s : string) : bool := no_char "." s && no_char "_" s.

(** The four format tags the specification lists. *)
Definition supported (value : string) : bool :=
String.eqb value "ph256" || String.eqb value "ph1024"
|| String.eqb value "img16" || String.eqb value "img8".

(** What the round trip needs of the runtime's parsers: they read back
    what the schema writes for a value they have produced. *)
Record RuntimeReadsSchema `{PyRuntime} : Prop := {
  strptime_schema : forall s t,
    strptime s = Some t -> strptime (schema_timestamp t) = Some t;
  int_schema : forall s z,
    int_of_str s = Some z -> int_of_str (schema_int z) = Some z
}.

(** ** A sample runtime and sample files

    A small runtime that computes, used where a statement is evaluated
    on concrete input.  Each function is CPython's restricted to a plain
    subset of its input: where it returns a value, CPython returns the
    same one. *)

Definition digit_val (c : ascii) : option Z :=
let n := Z.of_nat (nat_of_ascii c) in
if (48 <=? n) && (n <=? 57) then Some (n - 48) else None.

Fixpoint digits_val (l : list ascii) (acc : Z) : option Z :=
match l with
| [] => Some acc
| c :: t => match digit_val c with
            | Some v => digits_val t (10 * acc + v)
            | None => None
            end
end.

Definition leap_year (y : Z) : bool :=
(y mod 4 =? 0) && (negb (y mod 100 =? 0) || (y mod 400 =? 0)).

Definition days_in_month (y m : Z) : Z :=
if m =? 2 then (if leap_year y then 29 else 28)
else if (m =? 4) || (m =? 6) || (m =? 9) || (m =? 11) then 30
else 31.

Definition valid_datetime (t : datetime) : bool :=
(1 <=? dt_year t) && (1 <=? dt_month t) && (dt_month t <=? 12)
&& (1 <=? dt_day t) && (dt_day t <=? days_in_month (dt_year t) (dt_month t))
&& (dt_hour t <=? 23) && (dt_minute t <=? 59) && (dt_second t <=? 59).

(** Timestamps with every field at its full width. *)
Definition sample_strptime (s : string) : option datetime :=
match list_ascii_of_string s with
| [y1; y2; y3; y4; a; m1; m2; b; d1; d2; c; h1; h2; d; n1; n2; e; s1; s2; f] =>
    if Ascii.eqb a "-" && Ascii.eqb b "-" && Ascii.eqb c "T"
       && Ascii.eqb d ":" && Ascii.eqb e ":" && Ascii.eqb f "Z"
    then
      match digits_val [y1; y2; y3; y4] 0, digits_val [m1; m2] 0,
            digits_val [d1; d2] 0, digits_val [h1; h2] 0,
            digits_val [n1; n2] 0, digits_val [s1; s2] 0 with
      | Some y, Some m, Some dd, Some h, Some n, Some ss =>
          let t := mkDatetime y m dd h n ss in
          if valid_datetime t then Some t else None
      | _, _, _, _, _, _ => None
      end
    else None
| _ => None
end.

(** Decimal numerals with an optional minus sign. *)
Definition sample_int_of_str (s : string) : option Z :=
option_map Z.of_int (NilZero.int_of_string s).

(** [int(x)] for a binary64 [x] given by its bits: None for inf and nan. *)
Definition trunc_float (f : pyfloat) : option Z :=
let e := (f / 2 ^ 52) mod 2048 in
let m := f mod 2 ^ 52 in
if e =? 2047 then None
else if e =? 0 then Some 0
else
  let mant := 2 ^ 52 + m in
  let mag := if 1075 <=? e then mant * 2 ^ (e - 1075)
             else mant / 2 ^ (1075 - e) in
  Some (if f / 2 ^ 63 =? 0 then mag else - mag).

Definition sample_py_int (v : JSON) : option Z :=
match v with
| JInt z => Some z
| JBool b => Some (if b then 1 else 0)
| JFloat f => trunc_float f
| JStr s => sample_int_of_str s
| _ => None
end.

(** [float(v)], where [int(v)] has failed: a float that is inf or nan
    is itself; None, lists, dicts and the strings of the samples raise. *)
Definition sample_py_float (v : JSON) : option pyfloat :=
match v with
| JFloat f => Some f
| _ => None
end.

Definition dq : string := String (ascii_of_nat 34) "".

Definition quoted (s : string) : string := (dq ++ s ++ dq)%string.

(** The JSON texts the samples use. *)
Definition doc_hk : string :=
("{" ++ quoted "QUABO_0" ++ ":{" ++ quoted "TEMP1" ++ ":" ++ quoted "21"
 ++ "," ++ quoted "HVMON0" ++ ":" ++ quoted "-5" ++ "}}")%string.

Definition doc_hk_cut : string :=
("{" ++ quoted "QUABO_0" ++ ":{" ++ quoted "TEMP1")%string.

Definition doc_hk_uid : string :=
("{" ++ quoted "QUABO_0" ++ ":{" ++ quoted "TEMP1" ++ ":" ++ quoted "21"
 ++ "," ++ quoted "UID" ++ ":" ++ quoted "7" ++ "}}")%string.

Definition doc_md_temp : string :=
("{" ++ quoted "TEMP1" ++ ":1," ++ quoted "TEMP2" ++ ":2,"
 ++ quoted "X" ++ ":3}")%string.

Definition doc_md_x : string := ("{" ++ quoted "X" ++ ":3}")%string.

Definition doc_md_xy : string :=
("{" ++ quoted "X" ++ ":4," ++ quoted "Y" ++ ":5}")%string.

Definition sample_docs : list (string * JSON) :=
[ (doc_hk, JObj [("QUABO_0"%string,
                  JObj [("TEMP1"%string, JStr "21");
                        ("HVMON0"%string, JStr "-5")])]);
  (doc_hk_uid, JObj [("QUABO_0"%string,
                      JObj [("TEMP1"%string, JStr "21");
                            ("UID"%string, JStr "7")])]);
  (doc_md_temp, JObj [("TEMP1"%string, JInt 1); ("TEMP2"%string, JInt 2);
                      ("X"%string, JInt 3)]);
  (doc_md_x, JObj [("X"%string, JInt 3)]);
  (doc_md_xy, JObj [("X"%string, JInt 4); ("Y"%string, JInt 5)]) ].

Definition is_space (b : byte) : bool :=
Byte.eqb b x20 || Byte.eqb b x09 || Byte.eqb b x0a || Byte.eqb b x0d.

Fixpoint lstrip (l : list byte) : list byte :=
match l with
| c :: t => if is_space c then lstrip t else l
| [] => []
end.

Definition strip (l : list byte) : list byte := rev (lstrip (rev (lstrip l))).

(** [json.loads] on the texts of [sample_docs], white space around them
    ignored. *)
Definition sample_json_loads (b : list byte) : option JSON :=
dict_get (string_of_list_byte (strip b)) sample_docs.

Definition sample_runtime : PyRuntime :=
{| strptime := sample_strptime;
   int_of_str := sample_int_of_str;
   json_loads := sample_json_loads;
   json_loads_utf8 := sample_json_loads;
   py_int := sample_py_int;
   py_float := sample_py_float |}.

(** A pixel map that wires pixel [p] to channel [p], for [0 <= p < 256]. *)
Definition sample_pixelmap : PixelMap :=
{| pixel_loc := Z;
   get_pixel_loc := fun _ _ p =>
     if (0 <=? p) && (p <? 256) then Ok p else Raise IndexError;
   get_data_index := fun _ _ loc => Ok loc |}.

Definition line_of (doc : string) : list byte :=
list_byte_of_string doc ++ [x0a].

(** Eleven housekeeping lines; the fourth was cut short. *)
Definition sample_hk_file : list byte :=
concat (repeat (line_of doc_hk) 3 ++ [line_of doc_hk_cut]
        ++ repeat (line_of doc_hk) 7).

(** Two records, then one that carries a field the first did not. *)
Definition sample_hk_file_uid : list byte :=
concat [line_of doc_hk; line_of doc_hk; line_of doc_hk_uid; line_of doc_hk].

Definition sample_name (value : string) : string :=
("start_2022-05-11T23:38:29Z.dp_" ++ value ++ ".bpp_2.module_1.seqno_0")%string.

(** A 124-byte metadata block: the text, blanks, and the [*] sentinel. *)
Definition md_block (text : list byte) : list byte :=
firstn 122 (text ++ repeat x20 122) ++ [x2a; x00].

(** A ph256 record: metadata block and 256 samples [base, base+1, ...]. *)
Definition sample_record (text : list byte) (base : Z) : list byte :=
md_block text
++ flat_map (fun i => enc16 (base + Z.of_nat i)) (seq 0 256).

Definition text_temp : list byte :=
line_of doc_md_temp ++ line_of doc_md_temp ++ list_byte_of_string doc_md_temp.

Definition text_xy : list byte :=
line_of doc_md_x ++ line_of doc_md_xy ++ list_byte_of_string doc_md_x.

Definition sample_ph256_file : list byte :=
sample_record text_temp (-128) ++ sample_record text_temp 1000.

(** The attributes [__init__] derives from the format tag and [bpp]. *)
Definition layout_of (fn : string) (t : datetime) (value : string)
  (b m q : Z) : datapff.t :=
let md := if String.eqb value "ph256" then 124 else 492 in
let px := if String.eqb value "ph256" then 256 else 1024 in
datapff.mk fn t value b m q md px (px * b) (md + px * b)
  (if String.eqb value "ph256" || String.eqb value "ph1024" then Some int16
   else if String.eqb value "img16" then None else Some uint8)
  (if String.eqb value "ph256" || String.eqb value "ph1024" then None
   else if String.eqb value "img16" then Some uint16 else None)
  [] None.

(** The channel a linear pixel index is read from: the two chained
    lookups of [pixelmap]. *)
Definition channel_index `{PixelMap} (quabo : Z) (ver : string) (pixel : Z)
  : result Z :=
loc <- get_pixel_loc quabo ver pixel ;;
get_data_index quabo ver loc.

(** The pair a call returns, without the object. *)
Definition returned {S A : Type} (r : result (S * A)) : result A :=
x <- r ;; Ok (snd x).

(** The decoder for the sample ph256 filename. *)
Definition sample_decoder : datapff.t :=
layout_of (sample_name "ph256") (mkDatetime 2022 5 11 23 38 29) "ph256" 2 1 0.

(** The length of the series of field [f]; 0 when there is none. *)
Definition slen {V : Type} (f : string) (d : dict (list V)) : nat :=
match dict_get f d with
| Some l => length l
| None => 0
end.

(** How often the canonical name [f] occurs among the given fields. *)
Definition occurrences (f : string) (fields : list string) : nat :=
count_occ string_dec (map rename_temp fields) f.

(** A housekeeping line of subsystem [key] whose record has the field
    names [fields], in any order. *)
Definition hk_record `{PyRuntime} (key : string) (fields : list string)
  (line : list byte) : Prop :=
exists items,
  json_loads line = Some (JObj [(key, JObj items)])
  /\ Permutation (map fst items) fields.

(** [hk_info] after [n] records of that subsystem and no other. *)
Definition hk_series (key : string) (fields : list string) (n : nat)
  (info : dict (dict (list JSON))) : Prop :=
exists sub,
  info = [(key, sub)]
  /\ (forall f, In f (keys sub) <-> In f (map rename_temp fields))
  /\ (forall f, slen f sub = (n * occurrences f fields)%nat).

Definition hk_state (key : string) (fields : list string) (n : nat)
  (info : dict (dict (list JSON))) : Prop :=
(n = 0%nat /\ info = []) \/ hk_series key fields n info.

(** Subsystem [key] is present, with series for exactly the names [K]. *)
Definition has_fields (key : string) (K : list string)
  (info : dict (dict (list JSON))) : Prop :=
exists sub, dict_get key info = Some sub /\ keys sub = K.


(** ** Series as lists *)






(** ** Metadata of a data file, as series *)

(** A metadata line that is an object with the field names [fields], in
    any order. *)
Definition md_record `{PyRuntime} (fields : list string) (line : list byte)
  : Prop :=
exists items,
  json_loads_utf8 line = Some (JObj items)
  /\ Permutation (map fst items) fields.

(** [self.metadata] with a series of length [n] for each of [fields]. *)
Definition md_series (fields : list string) (n : nat) (M : dict (list JSON))
  : Prop :=
(forall f, In f (keys M) <-> In f fields)
/\ (forall f l, dict_get f M = Some l -> length l = n).

Definition md_state (fields : list string) (n : nat) (M : dict (list JSON))
  : Prop :=
(n = 0%nat /\ M = []) \/ md_series fields n M.

Definition text_x : list byte :=
line_of doc_md_x ++ line_of doc_md_x ++ list_byte_of_string doc_md_x.

Definition text_cut : list byte :=
line_of doc_md_x ++ line_of doc_hk_cut ++ list_byte_of_string doc_md_x.


(** A ph256 decoder with two bytes per pixel, as [__init__] lays it
    out, holding the metadata [M] and the data [d]. *)
Definition ph256_object (fn : string) (t : datetime) (m q : Z)
  (M : dict (list JSON)) (d : option pydata) : datapff.t :=
datapff.mk fn t "ph256" 2 m q 124 256 512 636 (Some int16) None M d.


(** ** io.py: qconfig *)

(** [int(s, 16)] for a str; None is ValueError.  ([int(s, 10)] is
    [int(s)], the field [int_of_str] of the runtime.) *)
Class PyIntBase16 : Type := {
  int_of_str16 : string -> option Z
}.

Module qconfig.

Record t : Type := mk {
  config : dict JSON
}.

(** [file.split('/')[-1].split('.')[0]] *)
Definition key_of (file : string) : string :=
hd EmptyString (split "." (last (split "/" file) EmptyString)).

(** [int(vv,16)] if [vv.startswith('0x')], else [int(vv,10)]. *)
Definition parse_int `{PyRuntime} `{PyIntBase16} (vv : string) : result Z :=
if String.prefix "0x" vv then of_option ValueError (int_of_str16 vv)
else of_option ValueError (int_of_str vv).

(** The value stored for [v] under a key of a quabo_config file.  For a
    [v] that is not a str, [v.split(',')] raises AttributeError, which
    the [try] swallows with [tmp = []]; the length is not 4, and
    [v.startswith('0x')] raises AttributeError, which nothing catches. *)
Definition quabo_value `{PyRuntime} `{PyIntBase16} (v : JSON) : result JSON :=
match v with
| JStr s =>
    let tmp := split "," s in
    if (length tmp =? 4)%nat
    then l <- foldM (fun acc vv => z <- parse_int vv ;; Ok (acc ++ [JInt z]))
                    tmp [] ;;
         Ok (JArr l)
    else z <- parse_int s ;; Ok (JInt z)
| _ => Raise AttributeError
end.

(** Body of [for k, v in config.items()]. *)
Definition load_item `{PyRuntime} `{PyIntBase16} (key : string) (config : JSON)
  (cfg : dict JSON) (kv : string * JSON) : result (dict JSON) :=
if String.prefix "quabo_config" key
then
  x <- quabo_value (snd kv) ;;
  entry <- dict_lookup key cfg ;;
  match entry with
  | JObj d => Ok (dict_set key (JObj (dict_set (fst kv) x d)) cfg)
  | _ => Raise TypeError
  end
else Ok (dict_set key config cfg).

(** Body of [for file in jfiles]; a file is its path and its content. *)
Definition load_file `{PyRuntime} `{PyIntBase16} (cfg : dict JSON)
  (file : string * list byte) : result (dict JSON) :=
let key := key_of (fst file) in
config <- of_option ValueError (json_loads (snd file)) ;;
let cfg0 := dict_set key (JObj []) cfg in
items <- items_of config ;;
foldM (load_item key config) items cfg0.

(** [qconfig(fn)]; [jfiles] is what [glob(fn)] returns, each path with
    the content of its file. *)
Definition __init__ `{PyRuntime} `{PyIntBase16}
  (jfiles : list (string * list byte)) : result t :=
cfg <- foldM load_file jfiles [] ;;
Ok (mk cfg).

End qconfig.

(** A value a quabo_config entry may hold: an int, or a list of four. *)
Definition quabo_shape (v : JSON) : bool :=
match v with
| JInt _ => true
| JArr [JInt _; JInt _; JInt _; JInt _] => true
| _ => false
end.

(** Every entry under a quabo_config key is a dict of such values. *)
Definition quabo_entries (cfg : dict JSON) : Prop :=
forall key e,
  String.prefix "quabo_config" key = true ->
  dict_get key cfg = Some e ->
  exists d, e = JObj d /\ Forall (fun kv => quabo_shape (snd kv) = true) d.

(** *** A sample runtime for config files *)

Definition hex_val (c : ascii) : option Z :=
let n := Z.of_nat (nat_of_ascii c) in
if (48 <=? n) && (n <=? 57) then Some (n - 48)
else if (97 <=? n) && (n <=? 102) then Some (n - 87)
else if (65 <=? n) && (n <=? 70) then Some (n - 55)
else None.

Fixpoint hex_digits (s : string) (acc : Z) : option Z :=
match s with
| EmptyString => Some acc
| String c s' => match hex_val c with
                 | Some v => hex_digits s' (16 * acc + v)
                 | None => None
                 end
end.

(** Hexadecimal numerals written [0x...] with at least one digit. *)
Definition sample_int_of_str16 (s : string) : option Z :=
match s with
| String "0" (String "x" (String c s')) => hex_digits (String c s') 0
| _ => None
end.

Definition sample_base16 : PyIntBase16 :=
{| int_of_str16 := sample_int_of_str16 |}.

Definition doc_quabo : string :=
("{" ++ quoted "IP" ++ ":" ++ quoted "0x1F" ++ ","
 ++ quoted "GAIN" ++ ":" ++ quoted "1,2,0x3,40" ++ "}")%string.

Definition config_docs : list (string * JSON) :=
[ (doc_quabo, JObj [("IP"%string, JStr "0x1F");
                    ("GAIN"%string, JStr "1,2,0x3,40")]);
  (doc_md_xy, JObj [("X"%string, JInt 4); ("Y"%string, JInt 5)]) ].

(** The sample runtime, with [json.loads] on the texts of [config_docs]. *)
Definition config_runtime : PyRuntime :=
{| strptime := sample_strptime;
   int_of_str := sample_int_of_str;
   json_loads := fun b => dict_get (string_of_list_byte (strip b)) config_docs;
   json_loads_utf8 := sample_json_loads;
   py_int := sample_py_int;
   py_float := sample_py_float |}.

Definition sample_jfiles : list (string * list byte) :=
[ ("cfg/quabo_config_1.json"%string, line_of doc_quabo);
  ("cfg/obs_config.json"%string, line_of doc_md_xy) ].

(** * Properties *)

(** ** Strings and filenames *)

Lemma split_nonempty (c : ascii) (s : string) : split c s <> [].
Proof.
induction s as [|a s IH]; simpl; [discriminate|].
destruct (Ascii.eqb a c); [discriminate|].
destruct (split c s); discriminate.
Qed.

Lemma split_app_free (c : ascii) (a b : string) :
  no_char c a = true ->
  split c (a ++ b) = (a ++ hd EmptyString (split c b))%string :: tl (split c b).
Proof.
induction a as [|x a IH]; simpl; intros Hfree.
- destruct (split c b) eqn:E; [now apply split_nonempty in E|reflexivity].
- apply andb_true_iff in Hfree as [Hx Ha].
  apply negb_true_iff in Hx. rewrite Hx, (IH Ha). reflexivity.
Qed.

Lemma split_free (c : ascii) (a : string) :
  no_char c a = true -> split c a = [a].
Proof.
induction a as [|x a IH]; simpl; intros Hfree; [reflexivity|].
apply andb_true_iff in Hfree as [Hx Ha].
apply negb_true_iff in Hx. now rewrite Hx, (IH Ha).
Qed.

Lemma no_char_app (c : ascii) (a b : string) :
  no_char c (a ++ b) = no_char c a && no_char c b.
Proof.
induction a as [|x a IH]; simpl; [reflexivity|].
now rewrite IH, andb_assoc.
Qed.

Lemma sep_free_dot (s : string) : sep_free s = true -> no_char "." s = true.
Proof. unfold sep_free. now intros [H _]%andb_true_iff. Qed.

Lemma sep_free_underscore (s : string) :
  sep_free s = true -> no_char "_" s = true.
Proof. unfold sep_free. now intros [_ H]%andb_true_iff. Qed.

(** A label and a value joined by [_] split back into the two. *)
Lemma subfield_joined (label value : string) :
  sep_free label = true -> sep_free value = true ->
  getitem (split "_" (label ++ "_" ++ value)) 1 = Ok value.
Proof.
intros Hl Hv.
rewrite (split_app_free _ _ _ (sep_free_underscore _ Hl)). simpl.
now rewrite (split_free _ _ (sep_free_underscore _ Hv)).
Qed.

Lemma no_dot_joined (label value : string) :
  sep_free label = true -> sep_free value = true ->
  no_char "." (label ++ "_" ++ value) = true.
Proof.
intros Hl Hv. rewrite no_char_app. simpl.
now rewrite (sep_free_dot _ Hl), (sep_free_dot _ Hv).
Qed.

Lemma append_assoc (a b c : string) :
  ((a ++ b) ++ c = a ++ (b ++ c))%string.
Proof. induction a as [|x a IH]; simpl; [reflexivity | now rewrite IH]. Qed.

Lemma split_cons_char (c : ascii) (a b : string) :
  no_char c a = true ->
  split c (a ++ String c b) = a :: split c b.
Proof.
induction a as [|x a IH]; simpl; intros Hfree.
- now rewrite Ascii.eqb_refl.
- apply andb_true_iff in Hfree as [Hx Ha].
  apply negb_true_iff in Hx. now rewrite Hx, (IH Ha).
Qed.

Lemma split_cons_sep (c : ascii) (a b : string) :
  no_char c a = true ->
  split c (a ++ String c "" ++ b) = a :: split c b.
Proof. exact (split_cons_char c a b). Qed.

(** The five dot-separated fields of a schema filename. *)
Lemma split_schema_name (p ts tag v b m q : string) :
  sep_free p = true -> sep_free ts = true -> sep_free tag = true ->
  sep_free v = true -> sep_free b = true -> sep_free m = true ->
  sep_free q = true ->
  split "." (schema_name p ts tag v b m q)
  = [(p ++ "_" ++ ts)%string; (tag ++ "_" ++ v)%string;
     ("bpp" ++ "_" ++ b)%string; ("module" ++ "_" ++ m)%string;
     ("seqno" ++ "_" ++ q)%string].
Proof.
intros Hp Hts Htag Hv Hb Hm Hq.
assert (E : schema_name p ts tag v b m q
  = ((p ++ "_" ++ ts) ++ "." ++ (tag ++ "_" ++ v) ++ "."
     ++ ("bpp" ++ "_" ++ b) ++ "." ++ ("module" ++ "_" ++ m) ++ "."
     ++ ("seqno" ++ "_" ++ q))%string).
{ unfold schema_name. rewrite !append_assoc. reflexivity. }
rewrite E.
rewrite (split_cons_sep "." _ _ (no_dot_joined _ _ Hp Hts)).
rewrite (split_cons_sep "." _ _ (no_dot_joined _ _ Htag Hv)).
rewrite (split_cons_sep "." _ _ (no_dot_joined "bpp" _ eq_refl Hb)).
rewrite (split_cons_sep "." _ _ (no_dot_joined "module" _ eq_refl Hm)).
now rewrite (split_free "." _ (no_dot_joined "seqno" _ eq_refl Hq)).
Qed.

(** ** Construction of a decoder *)

Section Construction.
Context {rt : PyRuntime}.

(** [__init__] on a filename of the schema whose parts the runtime
    reads: it returns, with the fields read and the layout derived. *)
Lemma init_schema_name (p ts tag v b m q : string) (t : datetime)
  (zb zm zq : Z) :
  sep_free p = true -> sep_free ts = true -> sep_free tag = true ->
  sep_free v = true -> sep_free b = true -> sep_free m = true ->
  sep_free q = true ->
  strptime ts = Some t -> int_of_str b = Some zb ->
  int_of_str m = Some zm -> int_of_str q = Some zq ->
  datapff.__init__ (schema_name p ts tag v b m q)
  = Ok (layout_of (schema_name p ts tag v b m q) t v zb zm zq).
Proof.
intros Hp Hts Htag Hv Hb Hm Hq Et Eb Em Eq.
unfold datapff.__init__, datapff.subfield.
rewrite (split_schema_name _ _ _ _ _ _ _ Hp Hts Htag Hv Hb Hm Hq).
cbn [getitem nth_error bind].
rewrite (subfield_joined _ _ Hp Hts), (subfield_joined _ _ Htag Hv),
  (subfield_joined "bpp" _ eq_refl Hb),
  (subfield_joined "module" _ eq_refl Hm),
  (subfield_joined "seqno" _ eq_refl Hq).
cbn [bind]. rewrite Et, Eb, Em, Eq. cbn [of_option bind].
unfold layout_of.
destruct (String.eqb v "ph256"); cbn [orb];
  [reflexivity|].
destruct (String.eqb v "ph1024"); [reflexivity|].
destruct (String.eqb v "img16"); reflexivity.
Qed.

End Construction.

(** ** The schema's numerals and timestamps hold no separator *)

Lemma digit_char_not_sep (v : Z) (c : ascii) :
  0 <= v < 10 -> c = "."%char \/ c = "_"%char ->
  Ascii.eqb (digit_char v) c = false.
Proof.
intros Hv Hc.
assert (Hcases : v = 0 \/ v = 1 \/ v = 2 \/ v = 3 \/ v = 4 \/ v = 5
                 \/ v = 6 \/ v = 7 \/ v = 8 \/ v = 9) by lia.
destruct Hc; subst c;
  repeat (destruct Hcases as [-> | Hcases]; [reflexivity|]);
  subst v; reflexivity.
Qed.

Lemma no_char_pad_digits (c : ascii) (w : nat) (n : Z) (acc : string) :
  c = "."%char \/ c = "_"%char ->
  no_char c acc = true -> no_char c (pad_digits w n acc) = true.
Proof.
intros Hc. revert n acc.
induction w as [|w IH]; intros n acc Hacc; simpl; [exact Hacc|].
apply IH. simpl.
rewrite (digit_char_not_sep _ _ (Z.mod_pos_bound n 10 eq_refl) Hc).
exact Hacc.
Qed.

Lemma sep_free_schema_timestamp (t : datetime) :
  sep_free (schema_timestamp t) = true.
Proof.
unfold sep_free, schema_timestamp. apply andb_true_iff. split;
  repeat (apply no_char_pad_digits; [auto|]; try reflexivity;
          cbn [no_char Ascii.eqb Bool.eqb negb andb]).
Qed.

Lemma no_char_string_of_uint (c : ascii) (d : Decimal.uint) :
  c = "."%char \/ c = "_"%char ->
  no_char c (NilEmpty.string_of_uint d) = true.
Proof.
intros Hc. induction d; simpl; try reflexivity;
  destruct Hc; subst c; simpl; assumption.
Qed.

Lemma no_char_string_of_int (c : ascii) (d : Decimal.signed_int) :
  c = "."%char \/ c = "_"%char ->
  no_char c (NilZero.string_of_int d) = true.
Proof.
intros Hc.
assert (Hu : forall u, no_char c (NilZero.string_of_uint u) = true).
{ intros u. destruct u; try (apply (no_char_string_of_uint c _ Hc)).
  destruct Hc; subst c; reflexivity. }
destruct d as [u|u]; simpl; [apply Hu|].
rewrite Hu. destruct Hc; subst c; reflexivity.
Qed.

Lemma sep_free_schema_int (z : Z) : sep_free (schema_int z) = true.
Proof.
unfold sep_free, schema_int.
now rewrite !no_char_string_of_int by auto.
Qed.

(** ** The sample runtime reads what the schema writes *)

Lemma digit_val_inv (c : ascii) (v : Z) :
  digit_val c = Some v -> 0 <= v < 10 /\ digit_char v = c.
Proof.
unfold digit_val, digit_char.
destruct (_ && _) eqn:E; [|discriminate]. intros [= <-].
apply andb_true_iff in E as [E1 E2]. apply Z.leb_le in E1, E2.
split; [lia|].
replace (Z.of_nat (nat_of_ascii c) - 48 + 48)
  with (Z.of_nat (nat_of_ascii c)) by lia.
rewrite Nat2Z.id. apply ascii_nat_embedding.
Qed.

Lemma pad_digits_S (w : nat) (n : Z) (acc : string) :
  pad_digits (S w) n acc
  = String (digit_char ((n / 10 ^ Z.of_nat w) mod 10)) (pad_digits w n acc).
Proof.
revert n acc. induction w as [|w IH]; intros n acc.
- simpl. now rewrite Z.div_1_r.
- change (pad_digits (S (S w)) n acc)
    with (pad_digits (S w) (n / 10) (String (digit_char (n mod 10)) acc)).
  rewrite IH.
  change (pad_digits w (n / 10) (String (digit_char (n mod 10)) acc))
    with (pad_digits (S w) n acc).
  rewrite Nat2Z.inj_succ, Z.pow_succ_r by lia.
  rewrite Z.div_div by lia. reflexivity.
Qed.

Lemma digits_val_pad (l : list ascii) (a0 n : Z) (acc : string) :
  digits_val l a0 = Some n ->
  n / 10 ^ Z.of_nat (length l) = a0
  /\ pad_digits (length l) n acc = (string_of_list_ascii l ++ acc)%string.
Proof.
revert a0. induction l as [|c l IH]; intros a0 E.
- simpl in *. injection E as <-. now rewrite Z.div_1_r.
- cbn [digits_val] in E.
  destruct (digit_val c) as [v|] eqn:Ec; [|discriminate].
  apply digit_val_inv in Ec as [Hv <-].
  destruct (IH _ E) as [Hq Hpad].
  cbn [length]. rewrite pad_digits_S, Hq, Hpad. split.
  + rewrite Nat2Z.inj_succ, Z.pow_succ_r by lia.
    rewrite (Z.mul_comm 10), <- Z.div_div, Hq
      by (try apply Z.pow_pos_nonneg; lia).
    symmetry. apply (Z.div_unique _ 10 a0 v); lia.
  + replace ((10 * a0 + v) mod 10) with v; [reflexivity|].
    apply (Z.mod_unique _ 10 a0 v); lia.
Qed.

Lemma sample_strptime_inv (s : string) (t : datetime) :
  sample_strptime s = Some t -> schema_timestamp t = s.
Proof.
unfold sample_strptime. intros E.
rewrite <- (string_of_list_ascii_of_string s).
destruct (list_ascii_of_string s) as [|y1 l]; [discriminate|].
do 19 (destruct l as [|? l]; [discriminate|]).
destruct l; [|discriminate].
destruct (_ && _) eqn:Hsep in E; [|discriminate].
repeat (apply andb_true_iff in Hsep as [Hsep ?]).
repeat match goal with
       | H : Ascii.eqb _ _ = true |- _ => apply Ascii.eqb_eq in H; subst
       end.
repeat match type of E with
       | match digits_val ?l 0 with _ => _ end = _ =>
           let H := fresh "D" in
           destruct (digits_val l 0) eqn:H; [|discriminate]
       end.
destruct (valid_datetime _); [|discriminate]. injection E as <-.
unfold schema_timestamp. cbn [dt_year dt_month dt_day dt_hour dt_minute dt_second].
repeat match goal with
       | H : digits_val ?l 0 = Some ?n |- context [pad_digits ?w ?n ?acc] =>
           let P := fresh "P" in
           pose proof (proj2 (digits_val_pad l 0 n acc H)) as P;
           cbn [length] in P; rewrite P; clear P H
       end.
reflexivity.
Qed.

Lemma sample_runtime_reads_schema : @RuntimeReadsSchema sample_runtime.
Proof.
split.
- intros s t E. simpl in *.
  now rewrite (sample_strptime_inv s t E).
- intros s z _. simpl. unfold sample_int_of_str, schema_int.
  rewrite NilZero.isi.
  + simpl. now rewrite DecimalZ.of_to.
  + destruct z as [|q|q]; simpl; try discriminate.
    intros [= E]. exact (DecimalPos.Unsigned.to_uint_nonnil q E).
  + destruct z as [|q|q]; simpl; try discriminate.
    intros [= E]. exact (DecimalPos.Unsigned.to_uint_nonnil q E).
Qed.

(** ** Filename, format tag and layout *)

(** C9. A filename of the schema, with parts the runtime reads, gives a
    decoder; the filename rendered from its descriptor (under any prefix
    and tag label) gives a decoder again, and the descriptor (start
    time, format tag, bytes per pixel, module, sequence number) is the
    same. *)
Theorem descriptor_round_trip (rt : PyRuntime)
  (p ts tag v b m q : string) (t : datetime) (zb zm zq : Z)
  (p' tag' : string) :
  RuntimeReadsSchema ->
  sep_free p = true -> sep_free ts = true -> sep_free tag = true ->
  sep_free v = true -> sep_free b = true -> sep_free m = true ->
  sep_free q = true ->
  strptime ts = Some t -> int_of_str b = Some zb ->
  int_of_str m = Some zm -> int_of_str q = Some zq ->
  sep_free p' = true -> sep_free tag' = true ->
  exists d d',
    datapff.__init__ (schema_name p ts tag v b m q) = Ok d
    /\ descriptor d = mkDesc t v zb zm zq
    /\ datapff.__init__ (schema_filename p' tag' (descriptor d)) = Ok d'
    /\ descriptor d' = descriptor d.
Proof.
intros [Hts' Hint] Hp Hts Htag Hv Hb Hm Hq Et Eb Em Eq Hp' Htag'.
eexists. eexists. split; [|split; [|split]].
- eapply init_schema_name; eassumption.
- reflexivity.
- unfold schema_filename. cbn [descriptor layout_of datapff.startdt datapff.dp
    datapff.bpp datapff.module datapff.seqno fd_startdt fd_dp fd_bpp
    fd_module fd_seqno].
  apply init_schema_name; eauto using sep_free_schema_timestamp,
    sep_free_schema_int.
- reflexivity.
Qed.

Lemma descriptor_round_trip_witness :
  exists d d',
    @datapff.__init__ sample_runtime (sample_name "ph256") = Ok d
    /\ descriptor d = mkDesc (mkDatetime 2022 5 11 23 38 29) "ph256" 2 1 0
    /\ @datapff.__init__ sample_runtime
         (schema_filename "again" "dp" (descriptor d)) = Ok d'
    /\ descriptor d' = descriptor d.
Proof.
apply (descriptor_round_trip sample_runtime
         "start" "2022-05-11T23:38:29Z" "dp" "ph256" "2" "1" "0");
  solve [reflexivity | exact sample_runtime_reads_schema].
Defined.

(** C2, as the code has it. A schema filename whose format tag is not
    one of ph256, ph1024, img16, img8 is accepted: the decoder takes the
    layout of the catch-all branch, a 492-byte metadata block and 1024
    pixels, with unsigned 8-bit samples. *)
Theorem unknown_tag_takes_default_layout (rt : PyRuntime)
  (p ts tag v b m q : string) (t : datetime) (zb zm zq : Z) :
  sep_free p = true -> sep_free ts = true -> sep_free tag = true ->
  sep_free v = true -> sep_free b = true -> sep_free m = true ->
  sep_free q = true ->
  strptime ts = Some t -> int_of_str b = Some zb ->
  int_of_str m = Some zm -> int_of_str q = Some zq ->
  supported v = false ->
  datapff.__init__ (schema_name p ts tag v b m q)
  = Ok (datapff.mk (schema_name p ts tag v b m q) t v zb zm zq
          492 1024 (1024 * zb) (492 + 1024 * zb) (Some uint8) None [] None).
Proof.
intros Hp Hts Htag Hv Hb Hm Hq Et Eb Em Eq Hv'.
rewrite (init_schema_name p ts tag v b m q t zb zm zq) by assumption.
unfold supported in Hv'.
repeat (apply orb_false_iff in Hv' as [Hv' ?]).
unfold layout_of.
repeat match goal with H : String.eqb _ _ = false |- _ => rewrite H; clear H end.
reflexivity.
Qed.

Lemma unknown_tag_takes_default_layout_witness :
  @datapff.__init__ sample_runtime (sample_name "foo")
  = Ok (datapff.mk (sample_name "foo") (mkDatetime 2022 5 11 23 38 29)
          "foo" 2 1 0 492 1024 (1024 * 2) (492 + 1024 * 2)
          (Some uint8) None [] None).
Proof.
apply (unknown_tag_takes_default_layout sample_runtime
         "start" "2022-05-11T23:38:29Z" "dp" "foo" "2" "1" "0");
  reflexivity.
Defined.

(** C2, as stated, fails: the tag [foo] is not one of the four, and
    construction does not raise. *)
Lemma unknown_tag_is_not_rejected :
  supported "foo" = false
  /\ ~ (exists e, @datapff.__init__ sample_runtime (sample_name "foo") = Raise e).
Proof.
split; [reflexivity|]. intros [e E]. vm_compute in E. discriminate.
Qed.

(** The sample type [__init__] leaves in [self.dtype], by format tag. *)
Lemma dtype_by_tag (fn : string) (t : datetime) (v : string) (b m q : Z) :
  datapff.dtype (layout_of fn t v b m q)
  = if String.eqb v "ph256" || String.eqb v "ph1024" then Some int16
    else if String.eqb v "img16" then None else Some uint8.
Proof. reflexivity. Qed.

(** C5, at an img16 filename: the unsigned 16-bit type goes to the
    attribute [dtpye]; [dtype] is not assigned. *)
Theorem img16_dtype_is_not_set :
  exists d,
    @datapff.__init__ sample_runtime (sample_name "img16") = Ok d
    /\ datapff.dp d = "img16"%string
    /\ datapff.dtype d = None
    /\ datapff.dtpye d = Some uint16.
Proof. eexists. repeat split; reflexivity. Qed.

(** ** readpff: formats, sample count and skip *)

Section Readpff.
Context {rt : PyRuntime} {pm : PixelMap}.

(** Only the ph256 branch assigns [self.data]. *)
Lemma readpff_other_format (self : datapff.t) (file : list byte)
  (samples skip quabo : Z) (ver : string) (want_metadata : bool) :
  String.eqb (datapff.dp self) "ph256" = false ->
  datapff.data self = None ->
  datapff.readpff self file samples skip (PixelInt (-1)) quabo ver
    want_metadata = Raise AttributeError.
Proof.
intros Hdp Hdata. unfold datapff.readpff. rewrite Hdp. simpl.
now rewrite Hdata.
Qed.

(** The argument [skip] does not occur in the body. *)
Lemma readpff_ignores_skip (self : datapff.t) (file : list byte)
  (samples skip skip' : Z) (pixel : pixel_arg) (quabo : Z) (ver : string)
  (want_metadata : bool) :
  datapff.readpff self file samples skip pixel quabo ver want_metadata
  = datapff.readpff self file samples skip' pixel quabo ver want_metadata.
Proof. reflexivity. Qed.

(** A sample count other than -1 reaches [f.read] as a float. *)
Lemma read_table_counted (self : datapff.t) (file : list byte) (samples : Z) :
  samples <> -1 ->
  datapff.read_table self file samples
  = Raise (if datapff.bpp self =? 0 then ZeroDivisionError else TypeError).
Proof.
intros Hs. unfold datapff.read_table, truediv.
apply Z.eqb_neq in Hs. rewrite Hs.
now destruct (datapff.bpp self =? 0).
Qed.

Lemma read_ph256_data (self self1 : datapff.t) (file : list byte)
  (samples : Z) (want_metadata : bool) :
  datapff.read_ph256 self file samples want_metadata = Ok self1 ->
  exists a, datapff.data self1 = Some (Table a).
Proof.
unfold datapff.read_ph256.
destruct (datapff.read_table _ _ _) as [tmp|]; [|discriminate].
cbn [bind]. destruct (truediv _ _) as [w|]; [|discriminate].
cbn [bind]. destruct (if want_metadata then _ else _) as [md|]; [|discriminate].
cbn [bind]. intros [= <-]. eexists. reflexivity.
Qed.

End Readpff.

(** C1, at the formats other than ph256: the body of [readpff] reads
    the file only under [if self.dp == 'ph256'], so for a ph1024, img16
    or img8 decoder [self.data] has never been assigned when it is
    returned, whatever the file holds. *)
Theorem readpff_reads_only_ph256 (pm : PixelMap) (file : list byte)
  (samples skip quabo : Z) (ver : string) (want_metadata : bool) :
  (exists d, @datapff.__init__ sample_runtime (sample_name "ph1024") = Ok d
     /\ @datapff.readpff sample_runtime pm d file samples skip (PixelInt (-1))
          quabo ver want_metadata = Raise AttributeError)
  /\ (exists d, @datapff.__init__ sample_runtime (sample_name "img16") = Ok d
     /\ @datapff.readpff sample_runtime pm d file samples skip (PixelInt (-1))
          quabo ver want_metadata = Raise AttributeError)
  /\ (exists d, @datapff.__init__ sample_runtime (sample_name "img8") = Ok d
     /\ @datapff.readpff sample_runtime pm d file samples skip (PixelInt (-1))
          quabo ver want_metadata = Raise AttributeError).
Proof.
repeat split; eexists; (split; [reflexivity|]);
  now apply readpff_other_format.
Qed.

(** C3, at a file of two records with [skip = 1] and [samples = 1]: the
    call raises TypeError, because the byte count handed to [f.read] is
    the float [samples*self.datasize/self.bpp]; and [skip] is not used. *)
Theorem readpff_skip_and_count (pm : PixelMap) (quabo : Z) (ver : string)
  (want_metadata : bool) :
  @datapff.__init__ sample_runtime (sample_name "ph256") = Ok sample_decoder
  /\ length sample_ph256_file = (2 * 636)%nat
  /\ @datapff.readpff sample_runtime pm sample_decoder sample_ph256_file
       1 1 (PixelInt (-1)) quabo ver want_metadata = Raise TypeError.
Proof.
split; [reflexivity|]. split; [reflexivity|].
unfold datapff.readpff, datapff.read_ph256.
now rewrite read_table_counted.
Qed.

(** [a[:, ch]] written out: the element of every row at [ch], counted
    from the end when [ch] is negative. *)
Lemma column_in_range (t : ndarray2) (ch : Z) :
  - Z.of_nat (ncols t) <= ch < Z.of_nat (ncols t) ->
  column t ch
  = Ok (map (fun r => nth (Z.to_nat (ch mod Z.of_nat (ncols t))) r 0) (rows t)).
Proof.
intros Hr. unfold column.
replace ((- Z.of_nat (ncols t) <=? ch) && (ch <? Z.of_nat (ncols t)))
  with true
  by (symmetry; apply andb_true_iff; split;
      [apply Z.leb_le|apply Z.ltb_lt]; lia).
replace (if ch <? 0 then ch + Z.of_nat (ncols t) else ch)
  with (ch mod Z.of_nat (ncols t)); [reflexivity|].
destruct (Z.ltb_spec ch 0).
- symmetry. apply (Z.mod_unique ch _ (-1)); lia.
- apply Z.mod_small. lia.
Qed.

Lemma column_out_of_range (t : ndarray2) (ch : Z) :
  ch < - Z.of_nat (ncols t) \/ Z.of_nat (ncols t) <= ch ->
  column t ch = Raise IndexError.
Proof.
intros Hr. unfold column.
replace ((- Z.of_nat (ncols t) <=? ch) && (ch <? Z.of_nat (ncols t)))
  with false; [reflexivity|].
symmetry. apply andb_false_iff.
destruct Hr; [left; apply Z.leb_gt|right; apply Z.ltb_ge]; lia.
Qed.

Section PixelPair.
Context {rt : PyRuntime} {pm : PixelMap}.

(** The two calls on a ph256 decoder, as sequences of their steps. *)
Lemma readpff_without_selector (self : datapff.t) (file : list byte)
  (samples skip quabo : Z) (ver : string) (want_metadata : bool) :
  datapff.dp self = "ph256"%string ->
  returned (datapff.readpff self file samples skip (PixelInt (-1)) quabo ver
              want_metadata)
  = s1 <- datapff.read_ph256 self file samples want_metadata ;;
    d <- datapff.getattr (datapff.data s1) ;;
    Ok (d, datapff.metadata s1).
Proof.
intros Hdp. unfold datapff.readpff, returned. rewrite Hdp.
cbn [String.eqb Ascii.eqb Bool.eqb].
destruct (datapff.read_ph256 self file samples want_metadata) as [s1|];
  [|reflexivity].
cbn [bind datapff.pixel_selected Z.eqb Pos.eqb negb].
destruct (datapff.getattr (datapff.data s1)); reflexivity.
Qed.

Lemma readpff_with_pair (self : datapff.t) (file : list byte)
  (samples skip row col quabo : Z) (ver : string) (want_metadata : bool) :
  datapff.dp self = "ph256"%string ->
  returned (datapff.readpff self file samples skip (PixelList [row; col])
              quabo ver want_metadata)
  = s1 <- datapff.read_ph256 self file samples want_metadata ;;
    ind <- channel_index quabo ver (row * 16 + col) ;;
    d <- datapff.getattr (datapff.data s1) ;;
    d' <- datapff.select d ind ;;
    Ok (d', datapff.metadata s1).
Proof.
intros Hdp.
unfold datapff.readpff, datapff.pixel_index, datapff.pixel_selected,
  channel_index, QUABO_DIM, returned.
rewrite Hdp. cbn [String.eqb Ascii.eqb Bool.eqb getitem nth_error bind].
destruct (datapff.read_ph256 self file samples want_metadata) as [s1|];
  [|reflexivity].
cbn [bind].
destruct (get_pixel_loc quabo ver (row * 16 + col)) as [loc|]; [|reflexivity].
cbn [bind]. destruct (get_data_index quabo ver loc) as [ind|]; [|reflexivity].
cbn [bind]. destruct (datapff.getattr (datapff.data s1)) as [d|];
  [|reflexivity].
cbn [bind]. destruct (datapff.select d ind) as [d'|]; reflexivity.
Qed.

End PixelPair.

(** C7. On a ph256 decoder, compare the read with the pixel given as the
    list [[row, col]] with the read without a selector, and let [ch] be
    the channel index of the linear pixel [row*16 + col].  When the
    latter returns, it returns a table [t]; the former then returns the
    1-D sequence that holds, for every row of [t] in order, the row's
    element at index [ch] (counted from the end when [ch] is negative),
    with the same metadata.  It raises IndexError when [ch] is not an
    index of the rows, raises what the pixel map raises, and raises what
    the read without a selector raises. *)
Theorem pixel_pair_selects_channel_column (rt : PyRuntime) (pm : PixelMap)
  (self : datapff.t) (file : list byte) (samples skip row col quabo : Z)
  (ver : string) (want_metadata : bool) :
  datapff.dp self = "ph256"%string ->
  let full :=
    returned (datapff.readpff self file samples skip (PixelInt (-1))
                quabo ver want_metadata) in
  let pair :=
    returned (datapff.readpff self file samples skip (PixelList [row; col])
                quabo ver want_metadata) in
  (forall d m, full = Ok (d, m) -> exists t, d = Table t)
  /\ (forall t m ch,
        full = Ok (Table t, m) ->
        channel_index quabo ver (row * 16 + col) = Ok ch ->
        - Z.of_nat (ncols t) <= ch < Z.of_nat (ncols t) ->
        pair
        = Ok (Column (map (fun r => nth (Z.to_nat (ch mod Z.of_nat (ncols t)))
                                        r 0) (rows t)), m))
  /\ (forall t m ch,
        full = Ok (Table t, m) ->
        channel_index quabo ver (row * 16 + col) = Ok ch ->
        ch < - Z.of_nat (ncols t) \/ Z.of_nat (ncols t) <= ch ->
        pair = Raise IndexError)
  /\ (forall d m e,
        full = Ok (d, m) ->
        channel_index quabo ver (row * 16 + col) = Raise e ->
        pair = Raise e)
  /\ (forall e, full = Raise e -> pair = Raise e).
Proof.
intros Hdp. cbv zeta.
rewrite (readpff_without_selector self file samples skip quabo ver
           want_metadata Hdp).
rewrite (readpff_with_pair self file samples skip row col quabo ver
           want_metadata Hdp).
destruct (datapff.read_ph256 self file samples want_metadata) as [s1|e0] eqn:E.
- destruct (read_ph256_data _ _ _ _ _ E) as [a Ha].
  cbn [bind]. rewrite Ha. cbn [bind datapff.getattr of_option].
  split; [|split; [|split; [|split]]].
  + intros d m [= <- _]. now exists a.
  + intros t m ch [= <- <-] Ech Hr. rewrite Ech.
    cbn [bind datapff.select]. now rewrite (column_in_range a ch Hr).
  + intros t m ch [= <- <-] Ech Hr. rewrite Ech.
    cbn [bind datapff.select]. now rewrite (column_out_of_range a ch Hr).
  + intros d m e _ Ech. now rewrite Ech.
  + discriminate.
- cbn [bind]. repeat split; try discriminate.
  now intros e [= <-].
Qed.

Lemma pixel_pair_selects_channel_column_witness :
  let table :=
    mkArr 256 (map (fun r => view16 true (skipn 124 r))
                   [sample_record text_temp (-128);
                    sample_record text_temp 1000]) in
  returned (@datapff.readpff sample_runtime sample_pixelmap sample_decoder
              sample_ph256_file (-1) 0 (PixelList [1; 2]) 0 "qfb" false)
  = Ok (Column (map (fun r => nth (Z.to_nat (18 mod Z.of_nat (ncols table)))
                                  r 0) (rows table)), [])
  /\ map (fun r => nth (Z.to_nat (18 mod Z.of_nat (ncols table))) r 0)
         (rows table) = [-110; 1018].
Proof.
intros table.
destruct (pixel_pair_selects_channel_column sample_runtime sample_pixelmap
            sample_decoder sample_ph256_file (-1) 0 1 2 0 "qfb" false eq_refl)
  as (_ & Hin & _).
split; [|reflexivity].
apply (Hin table [] 18); [reflexivity|reflexivity|].
cbn [ncols table]. lia.
Defined.

(** ** numpy: buffers of whole records *)

Lemma frombuffer16_view16 (signed : bool) (n : nat) (b : list byte) :
  length b = (2 * n)%nat -> frombuffer16 signed b = Ok (view16 signed b).
Proof.
revert b. induction n as [|n IH]; intros b Hlen.
- destruct b; [reflexivity|discriminate].
- destruct b as [|lo [|hi b]]; try (simpl in Hlen; lia).
  cbn [frombuffer16 view16]. rewrite IH by (simpl in Hlen; lia).
  reflexivity.
Qed.

Lemma view16_app (signed : bool) (n : nat) (a b : list byte) :
  length a = (2 * n)%nat ->
  view16 signed (a ++ b) = view16 signed a ++ view16 signed b.
Proof.
revert a. induction n as [|n IH]; intros a Hlen.
- destruct a; [reflexivity|discriminate].
- destruct a as [|lo [|hi a]]; try (simpl in Hlen; lia).
  cbn [app view16]. rewrite IH by (simpl in Hlen; lia). reflexivity.
Qed.

Lemma length_view16 (signed : bool) (n : nat) (b : list byte) :
  length b = (2 * n)%nat -> length (view16 signed b) = n.
Proof.
revert b. induction n as [|n IH]; intros b Hlen.
- destruct b; [reflexivity|discriminate].
- destruct b as [|lo [|hi b]]; try (simpl in Hlen; lia).
  cbn [view16 length]. rewrite IH by (simpl in Hlen; lia). reflexivity.
Qed.

Lemma view16_skipn (signed : bool) (k : nat) (b : list byte) :
  view16 signed (skipn (2 * k) b) = skipn k (view16 signed b).
Proof.
revert b. induction k as [|k IH]; intros b; [reflexivity|].
replace (2 * S k)%nat with (S (S (2 * k))) by lia.
destruct b as [|lo [|hi b]]; try reflexivity.
cbn [skipn view16]. apply IH.
Qed.

Lemma view16_concat (signed : bool) (n : nat) (recs : list (list byte)) :
  Forall (fun r => length r = (2 * n)%nat) recs ->
  view16 signed (concat recs) = concat (map (view16 signed) recs).
Proof.
induction 1 as [|r recs Hr _ IH]; [reflexivity|].
cbn [concat map]. now rewrite (view16_app _ n), IH.
Qed.

Lemma length_concat_uniform {A : Type} (n : nat) (ls : list (list A)) :
  Forall (fun r => length r = n) ls ->
  length (concat ls) = (length ls * n)%nat.
Proof.
induction 1 as [|r ls Hr _ IH]; [reflexivity|].
cbn [concat length]. rewrite length_app, IH, Hr. reflexivity.
Qed.

Lemma split_rows_concat (n : nat) (ls : list (list Z)) :
  Forall (fun r => length r = n) ls ->
  split_rows (length ls) n (concat ls) = ls.
Proof.
induction 1 as [|r ls Hr _ IH]; [reflexivity|].
cbn [concat length split_rows].
rewrite firstn_app, skipn_app, Hr, Nat.sub_diag, <- Hr.
rewrite firstn_all, skipn_all, firstn_O, app_nil_r. cbn [skipn app].
rewrite Hr. now rewrite IH.
Qed.

(** ** readpff: the whole of a ph256 file *)

Section ReadAll.
Context {rt : PyRuntime} {pm : PixelMap}.

(** Whatever [__init__] returns is a layout derived from five fields. *)
Lemma init_layout (fn : string) (self : datapff.t) :
  datapff.__init__ fn = Ok self ->
  exists t v b m q, self = layout_of fn t v b m q.
Proof.
unfold datapff.__init__. intros E.
repeat match type of E with
       | bind ?r _ = Ok _ =>
           destruct r eqn:?; cbn [bind] in E; [|discriminate]
       end.
match type of E with
| context [datapff.mk fn ?t ?v ?b ?m ?q] => exists t, v, b, m, q
end.
unfold layout_of.
repeat match type of E with
       | context [String.eqb ?x ?y] => destruct (String.eqb x y) eqn:?
       end;
  cbn in E; injection E as <-; reflexivity.
Qed.

(** A ph256 decoder with two bytes per pixel. *)
Lemma init_ph256 (fn : string) (self : datapff.t) :
  datapff.__init__ fn = Ok self ->
  datapff.dp self = "ph256"%string -> datapff.bpp self = 2 ->
  exists t m q, self = layout_of fn t "ph256" 2 m q.
Proof.
intros E Hdp Hbpp.
destruct (init_layout fn self E) as (t & v & b & m & q & ->).
cbn in Hdp, Hbpp. subst v b. now exists t, m, q.
Qed.

(** The table [read_table] builds from a file of whole records. *)
Lemma read_table_records (fn : string) (t : datetime) (m q : Z)
  (recs : list (list byte)) :
  Forall (fun r => length r = 636%nat) recs ->
  datapff.read_table (layout_of fn t "ph256" 2 m q) (concat recs) (-1)
  = Ok (mkArr 318 (map (view16 true) recs)).
Proof.
intros Hrecs.
assert (Hrecs' : Forall (fun r => length r = (2 * 318)%nat) recs)
  by exact Hrecs.
assert (Hlen : length (concat recs) = (2 * (length recs * 318))%nat).
{ rewrite (length_concat_uniform 636 recs Hrecs). lia. }
assert (Hviews : Forall (fun r => length r = 318%nat) (map (view16 true) recs)).
{ apply Forall_map. revert Hrecs'. apply Forall_impl.
  intros r Hr. exact (length_view16 true 318 r Hr). }
unfold datapff.read_table.
change (datapff.dtype (layout_of fn t "ph256" 2 m q)) with (Some int16).
change (datapff.datasize (layout_of fn t "ph256" 2 m q)) with 636.
change (datapff.bpp (layout_of fn t "ph256" 2 m q)) with 2.
cbn [Z.eqb Pos.eqb bind datapff.getattr of_option frombuffer].
rewrite (frombuffer16_view16 true _ _ Hlen).
rewrite (view16_concat true 318 recs Hrecs').
cbn [bind truediv Z.eqb int_of_num].
change (Z.quot 636 2) with 318.
unfold reshape. change (318 <=? 0) with false. cbv iota.
change (Z.to_nat 318) with 318%nat.
rewrite (length_concat_uniform 318 _ Hviews).
rewrite Nat.Div0.mod_mul, Nat.div_mul by discriminate.
rewrite Nat.eqb_refl.
now rewrite (split_rows_concat 318 _ Hviews).
Qed.

(** The data columns of that table: the samples after the 124-byte
    metadata block of each record. *)
Lemma data_columns_records (recs : list (list byte)) :
  Forall (fun r => length r = 636%nat) recs ->
  slice_cols (mkArr 318 (map (view16 true) recs)) 62 None
  = mkArr 256 (map (fun r => view16 true (skipn 124 r)) recs).
Proof.
intros Hrecs. unfold slice_cols. cbn [ncols rows].
change (slice_bound 62 318) with 62%nat.
change (318 - 62)%nat with 256%nat.
f_equal. rewrite map_map. apply map_ext_in. intros r Hr.
rewrite Forall_forall in Hrecs. specialize (Hrecs r Hr).
change 124%nat with (2 * 62)%nat. rewrite view16_skipn.
apply firstn_all2. rewrite length_skipn.
rewrite (length_view16 true 318 r) by (rewrite Hrecs; reflexivity).
apply Nat.eq_le_incl. reflexivity.
Qed.

End ReadAll.

(** C6. For a ph256 decoder with two bytes per pixel (16-bit samples)
    and a file of N whole records, [readpff(samples=-1)] returns a table
    with one row per record, each the 256 samples that follow the
    record's metadata block; for N = 0 it is the table with no rows. *)
Theorem read_all_returns_every_record (rt : PyRuntime) (pm : PixelMap)
  (fn : string) (self : datapff.t) (recs : list (list byte))
  (skip quabo : Z) (ver : string) :
  datapff.__init__ fn = Ok self ->
  datapff.dp self = "ph256"%string ->
  datapff.bpp self = 2 ->
  Forall (fun r => length r = Z.to_nat (datapff.datasize self)) recs ->
  let table :=
    mkArr (Z.to_nat (datapff._pixels self))
          (map (fun r => view16 true (skipn 124 r)) recs) in
  datapff.readpff self (concat recs) (-1) skip (PixelInt (-1)) quabo ver false
  = Ok (datapff.set_data self (Table table), (Table table, []))
  /\ length (rows table) = length recs
  /\ Forall (fun row => length row = 256%nat) (rows table).
Proof.
intros E Hdp Hbpp Hrecs.
destruct (init_ph256 fn self E Hdp Hbpp) as (t & m & q & ->).
change (Z.to_nat (datapff.datasize (layout_of fn t "ph256" 2 m q)))
  with 636%nat in Hrecs.
change (Z.to_nat (datapff._pixels (layout_of fn t "ph256" 2 m q)))
  with 256%nat.
cbv zeta. split; [|split].
- unfold datapff.readpff, datapff.read_ph256.
  change (datapff.dp (layout_of fn t "ph256" 2 m q)) with "ph256"%string.
  cbn [String.eqb Ascii.eqb Bool.eqb].
  rewrite (read_table_records fn t m q recs Hrecs).
  cbn [bind].
  change (datapff._md_size (layout_of fn t "ph256" 2 m q)) with 124.
  change (datapff.bpp (layout_of fn t "ph256" 2 m q)) with 2.
  cbn [truediv Z.eqb bind int_of_num].
  change (Z.quot 124 2) with 62.
  rewrite (data_columns_records recs Hrecs).
  reflexivity.
- cbn [rows]. apply length_map.
- cbn [rows]. apply Forall_map. revert Hrecs. apply Forall_impl.
  intros r Hr. apply (length_view16 true 256).
  rewrite length_skipn, Hr. reflexivity.
Qed.

Lemma read_all_returns_every_record_witness :
  (let recs := [sample_record text_temp (-128); sample_record text_temp 1000] in
   let table := mkArr 256 (map (fun r => view16 true (skipn 124 r)) recs) in
   @datapff.readpff sample_runtime sample_pixelmap sample_decoder
     (concat recs) (-1) 0 (PixelInt (-1)) 0 "qfb" false
   = Ok (datapff.set_data sample_decoder (Table table), (Table table, []))
   /\ length (rows table) = 2%nat
   /\ Forall (fun row => length row = 256%nat) (rows table))
  /\ @datapff.readpff sample_runtime sample_pixelmap sample_decoder
       [] (-1) 0 (PixelInt (-1)) 0 "qfb" false
     = Ok (datapff.set_data sample_decoder (Table (mkArr 256 [])),
           (Table (mkArr 256 []), [])).
Proof.
split.
- apply (read_all_returns_every_record sample_runtime sample_pixelmap
           (sample_name "ph256") sample_decoder
           [sample_record text_temp (-128); sample_record text_temp 1000]);
    try reflexivity.
  repeat constructor.
- apply (read_all_returns_every_record sample_runtime sample_pixelmap
           (sample_name "ph256") sample_decoder []); try reflexivity.
  constructor.
Defined.

(** ** dict *)

Section Dict.
Context {V : Type}.
Implicit Types (d : dict V) (k : string) (v : V).

Lemma dict_get_set_same d k v : dict_get k (dict_set k v d) = Some v.
Proof.
induction d as [|[k' v'] d IH]; simpl.
- now rewrite String.eqb_refl.
- destruct (String.eqb k' k) eqn:E; simpl; now rewrite E.
Qed.

Lemma dict_get_set_other d k k' v :
  k <> k' -> dict_get k' (dict_set k v d) = dict_get k' d.
Proof.
intros Hne. induction d as [|[k0 v0] d IH]; simpl.
- apply String.eqb_neq in Hne. now rewrite Hne.
- destruct (String.eqb k0 k) eqn:E; simpl; [|now rewrite IH].
  apply String.eqb_eq in E. subst k0.
  apply String.eqb_neq in Hne. now rewrite Hne.
Qed.

Lemma dict_set_set d k v v' : dict_set k v (dict_set k v' d) = dict_set k v d.
Proof.
induction d as [|[k0 v0] d IH]; simpl.
- now rewrite String.eqb_refl.
- destruct (String.eqb k0 k) eqn:E; simpl; rewrite E; [reflexivity|].
  now rewrite IH.
Qed.

Lemma dict_get_In d k : In k (keys d) <-> dict_get k d <> None.
Proof.
induction d as [|[k0 v0] d IH]; simpl; [tauto|].
destruct (String.eqb_spec k0 k) as [->|Hne].
- split; [discriminate|auto].
- rewrite <- IH. tauto.
Qed.

Lemma dict_get_not_In d k : ~ In k (keys d) -> dict_get k d = None.
Proof.
rewrite dict_get_In. destruct (dict_get k d); [|reflexivity].
intros H. now destruct H.
Qed.

Lemma keys_set_present d k v :
  In k (keys d) -> keys (dict_set k v d) = keys d.
Proof.
induction d as [|[k0 v0] d IH]; simpl; [tauto|].
destruct (String.eqb_spec k0 k) as [->|Hne]; [reflexivity|].
intros [H|H]; [contradiction|]. simpl. now rewrite (IH H).
Qed.

Lemma In_keys_set d k v f :
  In f (keys (dict_set k v d)) <-> f = k \/ In f (keys d).
Proof.
induction d as [|[k0 v0] d IH]; simpl.
- intuition.
- destruct (String.eqb_spec k0 k) as [->|Hne]; simpl.
  + intuition.
  + rewrite IH. intuition.
Qed.

Lemma dict_mem_true d k : dict_mem k d = true <-> In k (keys d).
Proof.
unfold dict_mem. rewrite dict_get_In.
destruct (dict_get k d); split; congruence.
Qed.

End Dict.

(** [d[k].append(x)] on a key that is there: one more element in the
    series of [k], the keys as before. *)
Lemma dict_append_present {V : Type} (d : dict (list V)) (k : string) (x : V) :
  In k (keys d) ->
  exists d', dict_append k x d = Ok d'
    /\ keys d' = keys d
    /\ forall f, slen f d' = (slen f d + if string_dec k f then 1 else 0)%nat.
Proof.
intros Hin. unfold dict_append, dict_lookup.
destruct (dict_get k d) as [l|] eqn:E; [|now apply dict_get_In in Hin].
cbn [bind]. eexists. split; [reflexivity|]. split.
- now apply keys_set_present.
- intros f. unfold slen. destruct (string_dec k f) as [<-|Hne].
  + rewrite dict_get_set_same, E, length_app. reflexivity.
  + rewrite dict_get_set_other by assumption. lia.
Qed.

Lemma dict_append_absent {V : Type} (d : dict (list V)) (k : string) (x : V) :
  ~ In k (keys d) -> dict_append k x d = Raise (KeyError k).
Proof.
intros Hin. unfold dict_append, dict_lookup.
now rewrite (dict_get_not_In _ _ Hin).
Qed.

Lemma dict_append_keys {V : Type} (d d' : dict (list V)) (k : string) (x : V) :
  dict_append k x d = Ok d' -> keys d' = keys d.
Proof.
intros E. destruct (in_dec string_dec k (keys d)) as [Hin|Hout].
- destruct (dict_append_present d k x Hin) as (d2 & E2 & Hk & _).
  congruence.
- rewrite (dict_append_absent d k x Hout) in E. discriminate.
Qed.

(** ** Loops that may raise *)

Lemma foldM_app {A S : Type} (f : S -> A -> result S) (l1 l2 : list A) (s : S) :
  foldM f (l1 ++ l2) s = s' <- foldM f l1 s ;; foldM f l2 s'.
Proof.
revert s. induction l1 as [|a l1 IH]; intros s; simpl; [reflexivity|].
destruct (f s a); simpl; [apply IH|reflexivity].
Qed.

Lemma foldM_invariant {A S : Type} (f : S -> A -> result S) (P : S -> Prop) :
  (forall s a s', P s -> f s a = Ok s' -> P s') ->
  forall l s s', P s -> foldM f l s = Ok s' -> P s'.
Proof.
intros Hstep. induction l as [|a l IH]; intros s s' Hs E; simpl in E.
- now injection E as <-.
- destruct (f s a) as [s1|] eqn:E1; [|discriminate].
  exact (IH s1 s' (Hstep _ _ _ Hs E1) E).
Qed.

(** ** The template of field names *)

Lemma rename_temp_image (k : string) :
  rename_temp k <> "TEMP1"%string /\ rename_temp k <> "TEMP2"%string.
Proof.
unfold rename_temp.
destruct (String.eqb_spec k "TEMP1") as [->|H1]; [split; discriminate|].
destruct (String.eqb_spec k "TEMP2") as [->|H2]; [split; discriminate|].
now split.
Qed.

Lemma rename_temp_fixed (k : string) :
  k <> "TEMP1"%string -> k <> "TEMP2"%string -> rename_temp k = k.
Proof.
intros H1 H2. unfold rename_temp.
apply String.eqb_neq in H1, H2. now rewrite H1, H2.
Qed.

Lemma template_fold_keys (ks : list string) (acc : dict (list JSON)) (f : string) :
  In f (keys (fold_left (fun t k => dict_set (rename_temp k) [] t) ks acc))
  <-> In f (keys acc) \/ In f (map rename_temp ks).
Proof.
revert acc. induction ks as [|k ks IH]; intros acc; simpl; [tauto|].
rewrite IH, In_keys_set. intuition.
Qed.

Lemma template_keys (items : list (string * JSON)) (f : string) :
  In f (keys (_gen_dict_template items))
  <-> In f (map rename_temp (map fst items)).
Proof.
unfold _gen_dict_template. rewrite template_fold_keys. simpl. tauto.
Qed.

Lemma template_fold_slen (ks : list string) (acc : dict (list JSON)) :
  (forall f, slen f acc = 0%nat) ->
  forall f, slen f (fold_left (fun t k => dict_set (rename_temp k) [] t) ks acc)
            = 0%nat.
Proof.
revert acc. induction ks as [|k ks IH]; intros acc Hacc; simpl; [exact Hacc|].
apply IH. intros f. unfold slen.
destruct (string_dec (rename_temp k) f) as [<-|Hne].
- now rewrite dict_get_set_same.
- rewrite dict_get_set_other by assumption. apply Hacc.
Qed.

Lemma template_slen (items : list (string * JSON)) (f : string) :
  slen f (_gen_dict_template items) = 0%nat.
Proof. unfold _gen_dict_template. now apply template_fold_slen. Qed.

Lemma template_nonempty (items : list (string * JSON)) :
  items <> [] -> _gen_dict_template items <> [].
Proof.
destruct items as [|[k v] items]; [congruence|]. intros _ E.
assert (H : In (rename_temp k) (keys (_gen_dict_template ((k, v) :: items))))
  by (apply template_keys; now left).
now rewrite E in H.
Qed.

Lemma dict_set_get_same {V : Type} (d : dict V) (k : string) (v : V) :
  dict_get k d = Some v -> dict_set k v d = d.
Proof.
induction d as [|[k0 v0] d IH]; simpl; [discriminate|].
destruct (String.eqb k0 k) eqn:E.
- now intros [= ->].
- intros H. now rewrite (IH H).
Qed.

(** ** readhk *)

Section Housekeeping.
Context {rt : PyRuntime}.

(** The loop over the fields of one record, when every canonical name
    has a series: it appends one value per field. *)
Lemma hk_fields_present (key : string) (items : list (string * JSON)) :
  forall (info : dict (dict (list JSON))) (sub : dict (list JSON)),
  dict_get key info = Some sub ->
  (forall k, In k (map fst items) -> In (rename_temp k) (keys sub)) ->
  exists sub',
    foldM (hkpff.hk_field key) items info = Ok (dict_set key sub' info)
    /\ keys sub' = keys sub
    /\ forall f, slen f sub' = (slen f sub + occurrences f (map fst items))%nat.
Proof.
induction items as [|[k v] items IH]; intros info sub Hget Hall.
- exists sub. cbn [foldM]. rewrite (dict_set_get_same _ _ _ Hget).
  repeat split. intros f. unfold occurrences. simpl. lia.
- destruct (dict_append_present sub (rename_temp k) (hkpff.convert v))
    as (sub1 & E1 & Hk1 & Hs1); [apply Hall; now left|].
  destruct (IH (dict_set key sub1 info) sub1) as (sub' & E' & Hk' & Hs').
  + apply dict_get_set_same.
  + intros k' Hk'. rewrite Hk1. apply Hall. now right.
  + exists sub'. split; [|split].
    * cbn [foldM]. unfold hkpff.hk_field at 1. unfold dict_lookup.
      rewrite Hget. cbn [bind fst snd]. rewrite E1. cbn [bind].
      rewrite E'. now rewrite dict_set_set.
    * congruence.
    * intros f. rewrite Hs', Hs1. unfold occurrences.
      cbn [map fst count_occ].
      destruct (string_dec (rename_temp k) f); lia.
Qed.

Lemma occurrences_perm (f : string) (l1 l2 : list string) :
  Permutation l1 l2 -> occurrences f l1 = occurrences f l2.
Proof.
intros HP. unfold occurrences.
apply (Permutation_count_occ string_dec). now apply Permutation_map.
Qed.

(** One record more. *)
Lemma hk_line_record (key : string) (fields : list string) (n : nat)
  (info : dict (dict (list JSON))) (line : list byte) :
  hk_record key fields line -> hk_state key fields n info ->
  exists info', hkpff.hk_line info line = Ok info'
                /\ hk_series key fields (S n) info'.
Proof.
intros (items & Eline & HP) Hstate. unfold hkpff.hk_line. rewrite Eline.
cbn [hkpff.single_key bind].
assert (Hin : forall f, In f (map rename_temp (map fst items))
                        <-> In f (map rename_temp fields)).
{ intros f. split; apply Permutation_in; [|symmetry]; now apply Permutation_map. }
destruct Hstate as [[-> ->] | (sub & -> & Hkeys & Hlen)].
- cbn [dict_mem dict_get negb template_of bind dict_set items_of].
  destruct (hk_fields_present key items [(key, _gen_dict_template items)]
              (_gen_dict_template items)) as (sub' & E' & Hk' & Hs').
  + cbn [dict_get]. now rewrite String.eqb_refl.
  + intros k Hk. apply template_keys. now apply in_map.
  + rewrite E'. cbn [dict_set]. rewrite String.eqb_refl.
    eexists. split; [reflexivity|]. exists sub'. split; [reflexivity|]. split.
    * intros f. rewrite Hk', template_keys. apply Hin.
    * intros f. rewrite Hs', template_slen.
      rewrite (occurrences_perm f _ _ HP). lia.
- unfold dict_mem. cbn [dict_get]. rewrite String.eqb_refl.
  cbn [negb bind items_of].
  destruct (hk_fields_present key items [(key, sub)] sub)
    as (sub' & E' & Hk' & Hs').
  + cbn [dict_get]. now rewrite String.eqb_refl.
  + intros k Hk. apply Hkeys, Hin. now apply in_map.
  + rewrite E'. cbn [dict_set]. rewrite String.eqb_refl.
    eexists. split; [reflexivity|]. exists sub'. split; [reflexivity|]. split.
    * intros f. rewrite Hk'. apply Hkeys.
    * intros f. rewrite Hs', Hlen.
      rewrite (occurrences_perm f _ _ HP). lia.
Qed.

(** A run of records. *)
Lemma hk_lines_records (key : string) (fields : list string)
  (lines : list (list byte)) :
  Forall (hk_record key fields) lines ->
  forall n info, hk_state key fields n info ->
  exists info', foldM hkpff.hk_line lines info = Ok info'
                /\ hk_state key fields (n + length lines) info'.
Proof.
induction 1 as [|line lines Hline _ IH]; intros n info Hstate.
- exists info. rewrite Nat.add_0_r. now split.
- destruct (hk_line_record key fields n info line Hline Hstate)
    as (info1 & E1 & H1).
  destruct (IH (S n) info1 (or_intror H1)) as (info' & E' & H').
  exists info'. cbn [foldM length]. rewrite E1. cbn [bind].
  split; [exact E'|]. now rewrite Nat.add_succ_r.
Qed.

(** A line that does not parse changes nothing. *)
Lemma hk_line_malformed (info : dict (dict (list JSON))) (line : list byte) :
  json_loads line = None -> hkpff.hk_line info line = Ok info.
Proof. intros E. unfold hkpff.hk_line. now rewrite E. Qed.

End Housekeeping.

(** C8. A housekeeping file of eleven lines, one of which does not
    parse while the other ten are records of one subsystem with the
    same field names, no two of them with the same canonical name
    (a record does not carry both TEMP1 and DET_TEMP, or both TEMP2 and
    FPGA_TEMP): a fresh decoder returns that subsystem alone, with a
    series for exactly the canonical field names, each of length 10. *)
Theorem malformed_line_is_skipped (rt : PyRuntime) (fn : string)
  (file : list byte) (l1 l2 : list (list byte)) (bad : list byte)
  (key : string) (fields : list string) :
  readlines file = l1 ++ bad :: l2 ->
  length (l1 ++ l2) = 10%nat ->
  json_loads bad = None ->
  Forall (hk_record key fields) (l1 ++ l2) ->
  NoDup (map rename_temp fields) ->
  exists series,
    hkpff.readhk (hkpff.__init__ fn) file
    = Ok (hkpff.mk fn [(key, series)], [(key, series)])
    /\ (forall f, In f (keys series) <-> In f (map rename_temp fields))
    /\ (forall f l, dict_get f series = Some l -> length l = 10%nat).
Proof.
intros Hlines Hten Hbad Hrec Hnodup.
apply Forall_app in Hrec as [Hrec1 Hrec2].
destruct (hk_lines_records key fields l1 Hrec1 0%nat [])
  as (info1 & E1 & H1); [left; now split|].
destruct (hk_lines_records key fields l2 Hrec2 _ info1 H1)
  as (info2 & E2 & H2).
rewrite length_app in Hten. cbn [Nat.add] in H2. rewrite Hten in H2.
destruct H2 as [[H _]|(series & -> & Hkeys & Hlen)]; [discriminate|].
exists series. split; [|split].
- unfold hkpff.readhk. rewrite Hlines, foldM_app.
  cbn [hkpff.__init__ hkpff.hk_info hkpff.fn]. rewrite E1.
  cbn [bind foldM]. rewrite (hk_line_malformed _ _ Hbad). cbn [bind].
  rewrite E2. reflexivity.
- exact Hkeys.
- intros f l Hget.
  assert (Hin : In f (map rename_temp fields)).
  { apply Hkeys, dict_get_In. congruence. }
  specialize (Hlen f). unfold slen in Hlen. rewrite Hget in Hlen.
  unfold occurrences in Hlen.
  rewrite (proj1 (NoDup_count_occ' string_dec _) Hnodup f Hin) in Hlen. lia.
Qed.

Lemma sample_hk_line_is_record :
  @hk_record sample_runtime "QUABO_0" ["TEMP1"; "HVMON0"]%string (line_of doc_hk).
Proof.
exists [("TEMP1"%string, JStr "21"); ("HVMON0"%string, JStr "-5")].
split; [reflexivity|apply Permutation_refl].
Qed.

Lemma malformed_line_is_skipped_witness :
  exists series,
    @hkpff.readhk sample_runtime (hkpff.__init__ "hk.pff") sample_hk_file
    = Ok (hkpff.mk "hk.pff" [("QUABO_0"%string, series)],
          [("QUABO_0"%string, series)])
    /\ (forall f, In f (keys series)
                  <-> In f (map rename_temp ["TEMP1"; "HVMON0"]%string))
    /\ (forall f l, dict_get f series = Some l -> length l = 10%nat).
Proof.
apply (malformed_line_is_skipped sample_runtime "hk.pff" sample_hk_file
         (repeat (line_of doc_hk) 3) (repeat (line_of doc_hk) 7)
         (line_of doc_hk_cut)).
- reflexivity.
- reflexivity.
- reflexivity.
- repeat (constructor; [exact sample_hk_line_is_record|]). constructor.
- repeat constructor; simpl; intuition discriminate.
Defined.

(** ** The field names of a subsystem are fixed by its first record *)

Section Frozen.
Context {rt : PyRuntime}.

Lemma hk_field_fields (key key2 : string) (K : list string)
  (info info' : dict (dict (list JSON))) (kv : string * JSON) :
  has_fields key K info -> hkpff.hk_field key2 info kv = Ok info' ->
  has_fields key K info'.
Proof.
intros (sub & Hget & Hk). unfold hkpff.hk_field, dict_lookup.
destruct (dict_get key2 info) as [sub2|] eqn:E2; [|discriminate].
cbn [bind].
destruct (dict_append _ _ sub2) as [sub2'|] eqn:Ea; [|discriminate].
cbn [bind]. intros [= <-].
destruct (string_dec key2 key) as [->|Hne].
- exists sub2'. rewrite dict_get_set_same. split; [reflexivity|].
  rewrite (dict_append_keys _ _ _ _ Ea). congruence.
- exists sub. now rewrite dict_get_set_other.
Qed.

Lemma hk_line_fields (key : string) (K : list string)
  (info info' : dict (dict (list JSON))) (line : list byte) :
  has_fields key K info -> hkpff.hk_line info line = Ok info' ->
  has_fields key K info'.
Proof.
intros HP. unfold hkpff.hk_line.
destruct (json_loads line) as [hk|]; [|now intros [= <-]].
destruct (hkpff.single_key hk) as [[key2 body]|]; [|discriminate].
cbn [bind].
destruct (dict_mem key2 info) eqn:Emem; cbn [negb bind].
- destruct (items_of body) as [items|]; [|discriminate]. cbn [bind].
  apply (foldM_invariant (hkpff.hk_field key2) (has_fields key K)); [|exact HP].
  intros s a s' Hs. now apply hk_field_fields.
- destruct (template_of body) as [template|]; [|discriminate]. cbn [bind].
  destruct (items_of body) as [items|]; [|discriminate]. cbn [bind].
  apply (foldM_invariant (hkpff.hk_field key2) (has_fields key K)).
  + intros s a s' Hs. now apply hk_field_fields.
  + destruct HP as (sub & Hget & Hk). exists sub. split; [|exact Hk].
    rewrite dict_get_set_other; [exact Hget|]. intros ->.
    unfold dict_mem in Emem. now rewrite Hget in Emem.
Qed.

(** The first record of a subsystem sets its field names. *)
Lemma hk_line_first (key : string) (items : list (string * JSON))
  (info info' : dict (dict (list JSON))) (line : list byte) :
  dict_get key info = None ->
  json_loads line = Some (JObj [(key, JObj items)]) ->
  hkpff.hk_line info line = Ok info' ->
  has_fields key (keys (_gen_dict_template items)) info'.
Proof.
intros Hnone Eline. unfold hkpff.hk_line.
rewrite Eline. cbn [hkpff.single_key bind]. unfold dict_mem.
rewrite Hnone. cbn [bind negb template_of items_of].
apply (foldM_invariant (hkpff.hk_field key)
         (has_fields key (keys (_gen_dict_template items)))).
- intros s a s' Hs. now apply hk_field_fields.
- eexists. split; [apply dict_get_set_same|reflexivity].
Qed.

(** The loop over the fields of a record stops at the first field that
    has no series. *)
Lemma hk_fields_missing (key k : string) (v : JSON)
  (i1 i2 : list (string * JSON)) (info : dict (dict (list JSON)))
  (sub : dict (list JSON)) :
  dict_get key info = Some sub ->
  (forall k', In k' (map fst i1) -> In (rename_temp k') (keys sub)) ->
  ~ In (rename_temp k) (keys sub) ->
  foldM (hkpff.hk_field key) (i1 ++ (k, v) :: i2) info
  = Raise (KeyError (rename_temp k)).
Proof.
intros Hget Hall Hmiss. rewrite foldM_app.
destruct (hk_fields_present key i1 info sub Hget Hall) as (sub' & E & Hk & _).
rewrite E. cbn [bind foldM]. unfold hkpff.hk_field at 1, dict_lookup.
rewrite dict_get_set_same. cbn [bind fst snd].
rewrite dict_append_absent by (now rewrite Hk). reflexivity.
Qed.

(** The same for the metadata of a data file, where the loop looks the
    field name up as it is written. *)
Lemma md_fields_present (items : list (string * JSON)) :
  forall M : dict (list JSON),
  (forall k, In k (map fst items) -> In k (keys M)) ->
  exists M', foldM (fun m kv => dict_append (fst kv) (snd kv) m) items M = Ok M'
             /\ keys M' = keys M.
Proof.
induction items as [|[k v] items IH]; intros M Hall.
- now exists M.
- destruct (dict_append_present M k v) as (M1 & E1 & Hk1 & _);
    [apply Hall; now left|].
  destruct (IH M1) as (M' & E' & Hk').
  + intros k' Hk'. rewrite Hk1. apply Hall. now right.
  + exists M'. cbn [foldM fst snd]. rewrite E1. cbn [bind].
    split; [exact E'|congruence].
Qed.

Lemma md_fields_missing (k : string) (v : JSON) (i1 i2 : list (string * JSON))
  (M : dict (list JSON)) :
  (forall k', In k' (map fst i1) -> In k' (keys M)) ->
  ~ In k (keys M) ->
  foldM (fun m kv => dict_append (fst kv) (snd kv) m) (i1 ++ (k, v) :: i2) M
  = Raise (KeyError k).
Proof.
intros Hall Hmiss. rewrite foldM_app.
destruct (md_fields_present i1 M Hall) as (M' & E & Hk).
rewrite E. cbn [bind foldM fst snd].
rewrite dict_append_absent by (now rewrite Hk). reflexivity.
Qed.

Lemma md_line_fields (K : list string) (M M' : dict (list JSON))
  (raw : list byte) :
  K <> [] -> keys M = K -> datapff.md_line M raw = Ok M' -> keys M' = K.
Proof.
intros HK Hk. unfold datapff.md_line.
destruct (json_loads_utf8 raw) as [md|]; [|discriminate].
cbn [of_option bind].
destruct M as [|e M]; [now destruct HK|]. cbn [bind].
destruct (items_of md) as [items|]; [|discriminate]. cbn [bind].
apply (foldM_invariant _ (fun m => keys m = K)); [|exact Hk].
intros s a s' Hs Ea. now rewrite (dict_append_keys _ _ _ _ Ea).
Qed.

Lemma md_line_first (items : list (string * JSON)) (M' : dict (list JSON))
  (raw : list byte) :
  json_loads_utf8 raw = Some (JObj items) ->
  datapff.md_line [] raw = Ok M' ->
  keys M' = keys (_gen_dict_template items).
Proof.
intros Eraw. unfold datapff.md_line. rewrite Eraw.
cbn [of_option bind template_of items_of].
apply (foldM_invariant _ (fun m => keys m = keys (_gen_dict_template items)));
  [|reflexivity].
intros s a s' Hs Ea. now rewrite (dict_append_keys _ _ _ _ Ea).
Qed.

End Frozen.

(** C10. The field names of a housekeeping subsystem, and of the
    metadata of a data file, are those of the first record, under their
    canonical names.  When a later record that parses has a field whose
    canonical name is not among them (and it is the first such field of
    that record), the decode raises KeyError for it: [readhk] for the
    canonical name, [readpff] for the name as written.  For the
    metadata the first record is one with at least one field. *)
Theorem field_names_are_frozen (rt : PyRuntime) (pm : PixelMap) :
  (forall (self : hkpff.t) (file : list byte)
          (l0 mid rest : list (list byte)) (first later : list byte)
          (info0 info1 : dict (dict (list JSON))) (key : string)
          (items1 i1 i2 : list (string * JSON)) (k : string) (v : JSON),
     readlines file = l0 ++ first :: mid ++ later :: rest ->
     foldM hkpff.hk_line l0 (hkpff.hk_info self) = Ok info0 ->
     dict_get key info0 = None ->
     json_loads first = Some (JObj [(key, JObj items1)]) ->
     foldM hkpff.hk_line (first :: mid) info0 = Ok info1 ->
     json_loads later = Some (JObj [(key, JObj (i1 ++ (k, v) :: i2))]) ->
     (forall k', In k' (map fst i1) ->
                 In (rename_temp k') (map rename_temp (map fst items1))) ->
     ~ In (rename_temp k) (map rename_temp (map fst items1)) ->
     hkpff.readhk self file = Raise (KeyError (rename_temp k)))
  /\
  (forall (self : datapff.t) (file : list byte) (samples skip : Z)
          (pixel : pixel_arg) (quabo : Z) (ver : string)
          (tmp : ndarray2) (ty : np_dtype) (raw : list byte)
          (mid rest : list (list byte)) (first later : list byte)
          (M1 : dict (list JSON))
          (items1 i1 i2 : list (string * JSON)) (k : string) (v : JSON),
     datapff.dp self = "ph256"%string ->
     datapff.metadata self = [] ->
     datapff.read_table self file samples = Ok tmp ->
     datapff.dtype self = Some ty ->
     datapff.metadataraw self ty tmp = Ok raw ->
     splitlines raw = first :: mid ++ later :: rest ->
     json_loads_utf8 first = Some (JObj items1) ->
     items1 <> [] ->
     foldM datapff.md_line (first :: mid) [] = Ok M1 ->
     json_loads_utf8 later = Some (JObj (i1 ++ (k, v) :: i2)) ->
     (forall k', In k' (map fst i1) ->
                 In k' (map rename_temp (map fst items1))) ->
     ~ In (rename_temp k) (map rename_temp (map fst items1)) ->
     datapff.readpff self file samples skip pixel quabo ver true
     = Raise (KeyError k)).
Proof.
split.
- intros self file l0 mid rest first later info0 info1 key items1 i1 i2 k v
    Hlines E0 Hnone Efirst E1 Elater Hall Hmiss.
  assert (HP : has_fields key (keys (_gen_dict_template items1)) info1).
  { cbn [foldM] in E1.
    destruct (hkpff.hk_line info0 first) as [infoA|] eqn:EA; [|discriminate].
    cbn [bind] in E1.
    apply (foldM_invariant hkpff.hk_line
             (has_fields key (keys (_gen_dict_template items1)))
             (fun s a s' Hs => hk_line_fields key _ s s' a Hs) mid infoA info1);
      [|exact E1].
    exact (hk_line_first key items1 info0 infoA first Hnone Efirst EA). }
  destruct HP as (sub & Hget & Hk).
  unfold hkpff.readhk. rewrite Hlines, foldM_app, E0. cbn [bind].
  change (first :: mid ++ later :: rest) with ((first :: mid) ++ later :: rest).
  rewrite foldM_app, E1. cbn [bind foldM].
  unfold hkpff.hk_line at 1. rewrite Elater. cbn [hkpff.single_key bind].
  unfold dict_mem. rewrite Hget. cbn [negb bind items_of].
  rewrite (hk_fields_missing key k v i1 i2 info1 sub Hget); [reflexivity| |].
  + intros k' Hk'. rewrite Hk. apply template_keys. now apply Hall.
  + rewrite Hk, template_keys. exact Hmiss.
- intros self file samples skip pixel quabo ver tmp ty raw mid rest first later
    M1 items1 i1 i2 k v Hdp Hmd Htable Hty Hraw Hlines Efirst Hne E1 Elater
    Hall Hmiss.
  assert (HK : keys (_gen_dict_template items1) <> []).
  { intros E. apply (template_nonempty items1 Hne).
    now destruct (_gen_dict_template items1). }
  assert (Hk : keys M1 = keys (_gen_dict_template items1)).
  { cbn [foldM] in E1.
    destruct (datapff.md_line [] first) as [MA|] eqn:EA; [|discriminate].
    cbn [bind] in E1.
    apply (foldM_invariant datapff.md_line
             (fun m => keys m = keys (_gen_dict_template items1))
             (fun s a s' Hs => md_line_fields _ s s' a HK Hs) mid MA M1);
      [|exact E1].
    exact (md_line_first items1 MA first Efirst EA). }
  assert (Hlater : datapff.md_line M1 later = Raise (KeyError k)).
  { unfold datapff.md_line. rewrite Elater. cbn [of_option bind].
    destruct M1 as [|e M1]; [now rewrite <- Hk in HK|].
    cbn [bind items_of]. apply md_fields_missing.
    - intros k' Hk'. rewrite Hk. apply template_keys. now apply Hall.
    - rewrite Hk, template_keys. intros Hin. apply Hmiss.
      rewrite rename_temp_fixed; [exact Hin| |];
        apply in_map_iff in Hin as (k0 & <- & _);
        apply rename_temp_image. }
  unfold datapff.readpff, datapff.read_ph256.
  rewrite Hdp. cbn [String.eqb Ascii.eqb Bool.eqb]. rewrite Htable.
  cbn [bind]. unfold datapff.metadataraw in Hraw |- *.
  destruct (truediv (datapff._md_size self) (datapff.bpp self)) as [w|];
    [|discriminate].
  cbn [bind] in Hraw |- *. injection Hraw as Hraw.
  rewrite Hty. cbn [datapff.getattr of_option bind]. rewrite Hraw, Hlines, Hmd.
  change (first :: mid ++ later :: rest) with ((first :: mid) ++ later :: rest).
  rewrite foldM_app, E1. cbn [bind foldM]. rewrite Hlater. reflexivity.
Qed.

Lemma field_names_are_frozen_witness :
  @hkpff.readhk sample_runtime (hkpff.__init__ "hk.pff") sample_hk_file_uid
  = Raise (KeyError "UID")
  /\ @datapff.readpff sample_runtime sample_pixelmap sample_decoder
       (sample_record text_xy 0) (-1) 0 (PixelInt (-1)) 0 "qfb" true
     = Raise (KeyError "Y").
Proof.
destruct (field_names_are_frozen sample_runtime sample_pixelmap) as [Hhk Hmd].
split.
- eapply (Hhk (hkpff.__init__ "hk.pff") sample_hk_file_uid
            [] [line_of doc_hk] [line_of doc_hk] (line_of doc_hk)
            (line_of doc_hk_uid) [] _ "QUABO_0"%string
            [("TEMP1"%string, JStr "21"); ("HVMON0"%string, JStr "-5")]
            [("TEMP1"%string, JStr "21")] [] "UID"%string (JStr "7"));
    try reflexivity.
  + intros k' [<-|[]]. now left.
  + simpl. intuition discriminate.
- eapply (Hmd sample_decoder (sample_record text_xy 0) (-1) 0 (PixelInt (-1))
            0 "qfb"%string _ int16 _ [] _ (list_byte_of_string doc_md_x)
            (list_byte_of_string doc_md_xy) _
            [("X"%string, JInt 3)] [("X"%string, JInt 4)] []
            "Y"%string (JInt 5));
    try reflexivity.
  + discriminate.
  + intros k' [<-|[]]. now left.
  + simpl. intuition discriminate.
Defined.

(** ** readpff: metadata with TEMP1 and TEMP2 *)

(** The template holds the canonical names, the loop looks up the names
    as written: a first metadata line with a field TEMP1 or TEMP2 ends
    the call. *)
Lemma md_line_raw_temp (rt : PyRuntime) (raw : list byte)
  (i1 i2 : list (string * JSON)) (k : string) (v : JSON) :
  json_loads_utf8 raw = Some (JObj (i1 ++ (k, v) :: i2)) ->
  k = "TEMP1"%string \/ k = "TEMP2"%string ->
  (forall k', In k' (map fst i1) ->
              k' <> "TEMP1"%string /\ k' <> "TEMP2"%string) ->
  datapff.md_line [] raw = Raise (KeyError k).
Proof.
intros Eraw Hk Hall. unfold datapff.md_line. rewrite Eraw.
cbn [of_option bind template_of items_of].
apply md_fields_missing.
- intros k' Hk'. apply template_keys.
  destruct (Hall k' Hk') as [H1 H2].
  rewrite <- (rename_temp_fixed k' H1 H2).
  apply in_map. rewrite map_app. apply in_or_app. now left.
- rewrite template_keys. intros (k0 & <- & _)%in_map_iff.
  destruct (rename_temp_image k0) as [H1 H2]. now destruct Hk.
Qed.

(** C4, at a ph256 record whose metadata block holds three JSON lines
    with the keys TEMP1, TEMP2 and X: the call with [metadata=True]
    raises KeyError for TEMP1 and returns no mapping. *)
Theorem metadata_lookup_misses_renamed_key (pm : PixelMap) (quabo : Z)
  (ver : string) :
  map sample_json_loads (splitlines (firstn 122 (sample_record text_temp 0)))
  = repeat (Some (JObj [("TEMP1"%string, JInt 1); ("TEMP2"%string, JInt 2);
                        ("X"%string, JInt 3)])) 3
  /\ @datapff.readpff sample_runtime pm sample_decoder
       (sample_record text_temp 0) (-1) 0 (PixelInt (-1)) quabo ver true
     = Raise (KeyError "TEMP1").
Proof. split; reflexivity. Qed.

(** ** The template *)

Lemma NoDup_keys_set {V : Type} (d : dict V) (k : string) (v : V) :
  NoDup (keys d) -> NoDup (keys (dict_set k v d)).
Proof.
induction d as [|[k0 v0] d IH]; simpl; intros Hnd.
- repeat constructor. intros [].
- apply NoDup_cons_iff in Hnd as [Hout Hnd].
  destruct (String.eqb_spec k0 k) as [->|Hne]; simpl.
  + now constructor.
  + constructor; [|now apply IH].
    rewrite In_keys_set. intros [->|H]; [now apply Hne|now apply Hout].
Qed.

Lemma template_fold_NoDup (ks : list string) (acc : dict (list JSON)) :
  NoDup (keys acc) ->
  NoDup (keys (fold_left (fun t k => dict_set (rename_temp k) [] t) ks acc)).
Proof.
revert acc. induction ks as [|k ks IH]; intros acc Hacc; simpl; [exact Hacc|].
apply IH. now apply NoDup_keys_set.
Qed.

(** X1. The template [_gen_dict_template] returns has one key for each
    canonical name of a key of its argument and no other, no key twice,
    and an empty list under each; TEMP1 and TEMP2 are never keys. *)
Theorem template_holds_canonical_names (items : list (string * JSON)) :
  NoDup (keys (_gen_dict_template items))
  /\ (forall f, In f (keys (_gen_dict_template items))
                <-> exists k, In k (map fst items) /\ rename_temp k = f)
  /\ (forall f l, dict_get f (_gen_dict_template items) = Some l -> l = [])
  /\ dict_get "TEMP1" (_gen_dict_template items) = None
  /\ dict_get "TEMP2" (_gen_dict_template items) = None.
Proof.
split; [|split; [|split; [|split]]].
- unfold _gen_dict_template. apply template_fold_NoDup. constructor.
- intros f. rewrite template_keys, in_map_iff. split.
  + intros (k & <- & Hk). now exists k.
  + intros (k & Hk & <-). now exists k.
- intros f l Hget. pose proof (template_slen items f) as Hlen.
  unfold slen in Hlen. rewrite Hget in Hlen. now destruct l.
- apply dict_get_not_In. rewrite template_keys.
  intros (k & E & _)%in_map_iff. now destruct (rename_temp_image k).
- apply dict_get_not_In. rewrite template_keys.
  intros (k & E & _)%in_map_iff. now destruct (rename_temp_image k).
Qed.

(** ** readhk: the values of the series *)



Section HousekeepingValues.
Context {rt : PyRuntime}.






End HousekeepingValues.



(** ** readhk: state, other subsystems, and lines that are not records *)

Lemma foldM_invariant_Forall {A S : Type} (f : S -> A -> result S)
  (P : S -> Prop) (Q : A -> Prop) :
  (forall s a s', Q a -> P s -> f s a = Ok s' -> P s') ->
  forall l s s', Forall Q l -> P s -> foldM f l s = Ok s' -> P s'.
Proof.
intros Hstep. induction l as [|a l IH]; intros s s' Hl Hs E; simpl in E.
- now injection E as <-.
- apply Forall_cons_iff in Hl as [Ha Hl].
  destruct (f s a) as [s1|] eqn:E1; [|discriminate].
  exact (IH s1 s' Hl (Hstep _ _ _ Ha Hs E1) E).
Qed.

(** X3. [readhk] does not reset [self.hk_info]: on a file of n records
    of one subsystem (n > 0, the same fields, canonical names distinct)
    a fresh decoder returns series of length n, and a second call on the
    same object and file returns series of length 2n. *)
Theorem readhk_accumulates_across_calls (rt : PyRuntime) (fn : string)
  (file : list byte) (key : string) (fields : list string) :
  Forall (hk_record key fields) (readlines file) ->
  readlines file <> [] ->
  NoDup (map rename_temp fields) ->
  exists s1 s2,
    hkpff.readhk (hkpff.__init__ fn) file
    = Ok (hkpff.mk fn [(key, s1)], [(key, s1)])
    /\ hkpff.readhk (hkpff.mk fn [(key, s1)]) file
       = Ok (hkpff.mk fn [(key, s2)], [(key, s2)])
    /\ (forall f l, dict_get f s1 = Some l ->
                    length l = length (readlines file))
    /\ (forall f l, dict_get f s2 = Some l ->
                    length l = (2 * length (readlines file))%nat).
Proof.
intros Hrec Hne Hnd.
assert (Hlen : forall (n : nat) (sub : dict (list JSON)),
  (forall f, In f (keys sub) <-> In f (map rename_temp fields)) ->
  (forall f, slen f sub = (n * occurrences f fields)%nat) ->
  forall f l, dict_get f sub = Some l -> length l = n).
{ intros n sub Hkeys Hs f l Hget.
  assert (Hin : In f (map rename_temp fields)).
  { apply Hkeys, dict_get_In. congruence. }
  specialize (Hs f). unfold slen in Hs. rewrite Hget in Hs.
  unfold occurrences in Hs.
  rewrite (proj1 (NoDup_count_occ' string_dec _) Hnd f Hin) in Hs. lia. }
destruct (hk_lines_records key fields (readlines file) Hrec 0%nat [])
  as (info1 & E1 & H1); [left; now split|].
cbn [Nat.add] in H1.
destruct H1 as [[H _]|H1].
{ destruct (readlines file); [now destruct Hne|discriminate]. }
destruct (hk_lines_records key fields (readlines file) Hrec _ info1
            (or_intror H1)) as (info2 & E2 & H2).
destruct H2 as [[H _]|H2].
{ destruct (readlines file); [now destruct Hne|discriminate]. }
destruct H1 as (s1 & -> & Hk1 & Hs1). destruct H2 as (s2 & -> & Hk2 & Hs2).
exists s1, s2. split; [|split; [|split]].
- unfold hkpff.readhk. cbn [hkpff.__init__ hkpff.hk_info hkpff.fn].
  now rewrite E1.
- unfold hkpff.readhk. cbn [hkpff.hk_info hkpff.fn]. now rewrite E2.
- exact (Hlen _ s1 Hk1 Hs1).
- intros f l Hget. rewrite (Hlen _ s2 Hk2 Hs2 f l Hget). lia.
Qed.

Lemma readhk_accumulates_across_calls_witness :
  exists s1 s2,
    @hkpff.readhk sample_runtime (hkpff.__init__ "hk.pff")
      (line_of doc_hk ++ line_of doc_hk)
    = Ok (hkpff.mk "hk.pff" [("QUABO_0"%string, s1)], [("QUABO_0"%string, s1)])
    /\ @hkpff.readhk sample_runtime (hkpff.mk "hk.pff" [("QUABO_0"%string, s1)])
         (line_of doc_hk ++ line_of doc_hk)
       = Ok (hkpff.mk "hk.pff" [("QUABO_0"%string, s2)],
             [("QUABO_0"%string, s2)])
    /\ (forall f l, dict_get f s1 = Some l ->
          length l = length (readlines (line_of doc_hk ++ line_of doc_hk)))
    /\ (forall f l, dict_get f s2 = Some l ->
          length l
          = (2 * length (readlines (line_of doc_hk ++ line_of doc_hk)))%nat).
Proof.
apply (readhk_accumulates_across_calls sample_runtime "hk.pff"
         (line_of doc_hk ++ line_of doc_hk) "QUABO_0"
         ["TEMP1"; "HVMON0"]%string).
- repeat (constructor; [exact sample_hk_line_is_record|]). constructor.
- discriminate.
- repeat constructor; simpl; intuition discriminate.
Defined.

Section HousekeepingFrame.
Context {rt : PyRuntime}.

Lemma hk_field_other (key key2 : string) (info info' : dict (dict (list JSON)))
  (kv : string * JSON) :
  key2 <> key -> hkpff.hk_field key2 info kv = Ok info' ->
  dict_get key info' = dict_get key info.
Proof.
intros Hne. unfold hkpff.hk_field.
destruct (dict_lookup key2 info) as [sub|]; [|discriminate]. cbn [bind].
destruct (dict_append _ _ sub) as [sub'|]; [|discriminate]. cbn [bind].
intros [= <-]. now apply dict_get_set_other.
Qed.

Lemma hk_line_other (key : string) (info info' : dict (dict (list JSON)))
  (line : list byte) :
  (forall body, json_loads line <> Some (JObj [(key, body)])) ->
  hkpff.hk_line info line = Ok info' ->
  dict_get key info' = dict_get key info.
Proof.
intros Hother. unfold hkpff.hk_line.
destruct (json_loads line) as [hk|]; [|now intros [= <-]].
assert (Hk : forall key2 body, hkpff.single_key hk = Ok (key2, body) ->
                               key2 <> key).
{ intros key2 body E ->. apply (Hother body). f_equal.
  destruct hk as [| | | | | |items]; try discriminate.
  destruct items as [|[k b] [|? ?]]; try discriminate.
  now injection E as -> ->. }
destruct (hkpff.single_key hk) as [[key2 body]|]; [|discriminate].
specialize (Hk key2 body eq_refl). cbn [bind].
intros E.
assert (Hstart : forall info1 : dict (dict (list JSON)),
  dict_get key info1 = dict_get key info ->
  forall items, foldM (hkpff.hk_field key2) items info1 = Ok info' ->
  dict_get key info' = dict_get key info).
{ intros info1 H1 items.
  apply (foldM_invariant (hkpff.hk_field key2)
           (fun s => dict_get key s = dict_get key info)); [|exact H1].
  intros s a s' Hs Ea. now rewrite (hk_field_other key key2 s s' a Hk Ea). }
destruct (negb (dict_mem key2 info)).
- destruct (template_of body) as [template|]; [|discriminate].
  cbn [bind] in E. destruct (items_of body) as [items|]; [|discriminate].
  cbn [bind] in E. apply (Hstart _ (dict_get_set_other _ _ _ _ Hk) items E).
- cbn [bind] in E. destruct (items_of body) as [items|]; [|discriminate].
  cbn [bind] in E. exact (Hstart info eq_refl items E).
Qed.

End HousekeepingFrame.

(** X4. Records of other subsystems do not touch a subsystem: when no
    line of the file is a record of [key], a successful [readhk] leaves
    the entry of [key] in [hk_info] as it was. *)
Theorem other_subsystems_leave_series_alone (rt : PyRuntime)
  (self self' : hkpff.t) (file : list byte)
  (info' : dict (dict (list JSON))) (key : string) :
  Forall (fun line => forall body,
            json_loads line <> Some (JObj [(key, body)])) (readlines file) ->
  hkpff.readhk self file = Ok (self', info') ->
  dict_get key info' = dict_get key (hkpff.hk_info self)
  /\ hkpff.hk_info self' = info'.
Proof.
intros Hlines. unfold hkpff.readhk.
destruct (foldM hkpff.hk_line (readlines file) (hkpff.hk_info self))
  as [info|] eqn:E; [|discriminate].
cbn [bind]. intros [= <- <-]. split; [|reflexivity].
apply (foldM_invariant_Forall hkpff.hk_line
         (fun s => dict_get key s = dict_get key (hkpff.hk_info self))
         (fun line => forall body, json_loads line <> Some (JObj [(key, body)]))
         (fun s a s' Ha Hs Ea => eq_trans (hk_line_other key s s' a Ha Ea) Hs)
         (readlines file) (hkpff.hk_info self) info Hlines eq_refl E).
Qed.

Lemma other_subsystems_leave_series_alone_witness :
  exists self' info',
    @hkpff.readhk sample_runtime
      (hkpff.mk "hk.pff" [("WR"%string, [("PORT"%string, [JInt 1])])])
      sample_hk_file = Ok (self', info')
    /\ dict_get "WR" info' = Some [("PORT"%string, [JInt 1])]
    /\ hkpff.hk_info self' = info'.
Proof.
destruct (@hkpff.readhk sample_runtime
            (hkpff.mk "hk.pff" [("WR"%string, [("PORT"%string, [JInt 1])])])
            sample_hk_file) as [[self' info']|e] eqn:E;
  [|vm_compute in E; discriminate].
exists self', info'. split; [reflexivity|].
apply (other_subsystems_leave_series_alone sample_runtime _ self'
         sample_hk_file info' "WR") in E; [exact E|].
repeat (constructor; [intros body; vm_compute; discriminate|]). constructor.
Defined.

(** X5. A line that parses to something other than an object with one
    key is not skipped: it ends [readhk], with AttributeError when the
    value is not an object and with ValueError when the object has no
    key or more than one. *)
Theorem line_without_single_key_aborts (rt : PyRuntime) (self : hkpff.t)
  (file : list byte) (l1 l2 : list (list byte)) (line : list byte)
  (info1 : dict (dict (list JSON))) (hk : JSON) :
  readlines file = l1 ++ line :: l2 ->
  foldM hkpff.hk_line l1 (hkpff.hk_info self) = Ok info1 ->
  json_loads line = Some hk ->
  (forall key body, hk <> JObj [(key, body)]) ->
  hkpff.readhk self file
  = Raise (match hk with JObj _ => ValueError | _ => AttributeError end).
Proof.
intros Hlines E1 Eline Hhk. unfold hkpff.readhk.
rewrite Hlines, foldM_app, E1. cbn [bind foldM].
unfold hkpff.hk_line at 1. rewrite Eline.
destruct hk as [| | | | | |items]; try reflexivity.
destruct items as [|[k b] [|? ?]]; try reflexivity.
now destruct (Hhk k b).
Qed.

Lemma line_without_single_key_aborts_witness :
  @hkpff.readhk sample_runtime (hkpff.__init__ "hk.pff")
    (line_of doc_hk ++ line_of doc_md_xy ++ line_of doc_hk)
  = Raise ValueError.
Proof.
apply (line_without_single_key_aborts sample_runtime (hkpff.__init__ "hk.pff")
         (line_of doc_hk ++ line_of doc_md_xy ++ line_of doc_hk)
         [line_of doc_hk] [line_of doc_hk] (line_of doc_md_xy)
         [("QUABO_0"%string,
           [("DET_TEMP"%string, [JInt 21]); ("HVMON0"%string, [JInt (-5)])])]
         (JObj [("X"%string, JInt 4); ("Y"%string, JInt 5)])).
- reflexivity.
- reflexivity.
- reflexivity.
- discriminate.
Defined.

(** ** readpff: record boundaries and integer pixel selectors *)

Lemma frombuffer16_odd (signed : bool) (n : nat) (b : list byte) :
  length b = S (2 * n) -> frombuffer16 signed b = Raise ValueError.
Proof.
revert b. induction n as [|n IH]; intros b Hlen.
- destruct b as [|x [|y b]]; try discriminate. reflexivity.
- destruct b as [|lo [|hi b]]; try (simpl in Hlen; lia).
  cbn [frombuffer16]. rewrite IH by (simpl in Hlen; lia). reflexivity.
Qed.

Section ReadRecords.
Context {rt : PyRuntime} {pm : PixelMap}.

(** A file that does not end at a record boundary. *)
Lemma read_table_partial (fn : string) (t : datetime) (m q : Z)
  (file : list byte) :
  (length file mod 636 <> 0)%nat ->
  datapff.read_table (layout_of fn t "ph256" 2 m q) file (-1)
  = Raise ValueError.
Proof.
intros Hmod. unfold datapff.read_table.
change (datapff.dtype (layout_of fn t "ph256" 2 m q)) with (Some int16).
change (datapff.datasize (layout_of fn t "ph256" 2 m q)) with 636.
change (datapff.bpp (layout_of fn t "ph256" 2 m q)) with 2.
cbn [Z.eqb Pos.eqb bind datapff.getattr of_option frombuffer].
destruct (Nat.Even_or_Odd (length file)) as [[n Hn]|[n Hn]].
- rewrite (frombuffer16_view16 true n file Hn).
  cbn [bind truediv Z.eqb int_of_num].
  change (Z.quot 636 2) with 318.
  unfold reshape. change (318 <=? 0) with false. cbv iota.
  change (Z.to_nat 318) with 318%nat.
  rewrite (length_view16 true n file Hn).
  destruct (Nat.eqb_spec (n mod 318) 0) as [E|_]; [|reflexivity].
  exfalso. apply Hmod. apply Nat.Div0.div_exact in E.
  rewrite Hn, E.
  replace (2 * (318 * (n / 318)))%nat with ((n / 318) * 636)%nat by lia.
  apply Nat.Div0.mod_mul.
- rewrite (frombuffer16_odd true n file) by lia. reflexivity.
Qed.

(** What the branch for ph256 leaves in the object after it has read a
    file of whole records. *)
Lemma read_ph256_records (fn : string) (t : datetime) (m q : Z)
  (recs : list (list byte)) :
  Forall (fun r => length r = 636%nat) recs ->
  datapff.read_ph256 (layout_of fn t "ph256" 2 m q) (concat recs) (-1) false
  = Ok (datapff.set_data (layout_of fn t "ph256" 2 m q)
          (Table (mkArr 256 (map (fun r => view16 true (skipn 124 r)) recs)))).
Proof.
intros Hrecs. unfold datapff.read_ph256.
rewrite (read_table_records fn t m q recs Hrecs). cbn [bind].
change (datapff._md_size (layout_of fn t "ph256" 2 m q)) with 124.
change (datapff.bpp (layout_of fn t "ph256" 2 m q)) with 2.
cbn [truediv Z.eqb bind int_of_num].
change (Z.quot 124 2) with 62.
now rewrite (data_columns_records recs Hrecs).
Qed.

End ReadRecords.

(** X6. No partial record is read: for a ph256 decoder with two bytes
    per pixel, a file whose length is not a multiple of the record size
    makes [readpff(samples=-1)] raise ValueError, whatever the other
    arguments are. *)
Theorem partial_record_raises (rt : PyRuntime) (pm : PixelMap) (fn : string)
  (self : datapff.t) (file : list byte) (skip : Z) (pixel : pixel_arg)
  (quabo : Z) (ver : string) (want_metadata : bool) :
  datapff.__init__ fn = Ok self ->
  datapff.dp self = "ph256"%string ->
  datapff.bpp self = 2 ->
  (length file mod Z.to_nat (datapff.datasize self) <> 0)%nat ->
  datapff.readpff self file (-1) skip pixel quabo ver want_metadata
  = Raise ValueError.
Proof.
intros E Hdp Hbpp Hmod.
destruct (init_ph256 fn self E Hdp Hbpp) as (t & m & q & ->).
change (Z.to_nat (datapff.datasize (layout_of fn t "ph256" 2 m q)))
  with 636%nat in Hmod.
unfold datapff.readpff, datapff.read_ph256.
change (datapff.dp (layout_of fn t "ph256" 2 m q)) with "ph256"%string.
cbn [String.eqb Ascii.eqb Bool.eqb].
now rewrite (read_table_partial fn t m q file Hmod).
Qed.

Lemma partial_record_raises_witness :
  @datapff.readpff sample_runtime sample_pixelmap sample_decoder
    (firstn 1000 sample_ph256_file) (-1) 0 (PixelInt (-1)) 0 "qfb" false
  = Raise ValueError.
Proof.
apply (partial_record_raises sample_runtime sample_pixelmap
         (sample_name "ph256") sample_decoder); try reflexivity.
vm_compute. discriminate.
Defined.

(** X7. An integer [pixel] other than -1 selects one column of the
    table, counted from the end when negative: for a ph256 decoder with
    two bytes per pixel, a file of whole records and [-256 <= i < 256],
    [readpff(pixel=i)] returns, for each record in turn, its sample at
    index [i mod 256]. *)
Theorem pixel_index_selects_column (rt : PyRuntime) (pm : PixelMap)
  (fn : string) (self : datapff.t) (recs : list (list byte))
  (skip quabo i : Z) (ver : string) :
  datapff.__init__ fn = Ok self ->
  datapff.dp self = "ph256"%string ->
  datapff.bpp self = 2 ->
  Forall (fun r => length r = Z.to_nat (datapff.datasize self)) recs ->
  - 256 <= i < 256 -> i <> -1 ->
  let col :=
    map (fun r => nth (Z.to_nat (i mod 256)) (view16 true (skipn 124 r)) 0)
        recs in
  datapff.readpff self (concat recs) (-1) skip (PixelInt i) quabo ver false
  = Ok (datapff.set_data self (Column col), (Column col, [])).
Proof.
intros E Hdp Hbpp Hrecs Hi Hne.
destruct (init_ph256 fn self E Hdp Hbpp) as (t & m & q & ->).
change (Z.to_nat (datapff.datasize (layout_of fn t "ph256" 2 m q)))
  with 636%nat in Hrecs.
cbv zeta. unfold datapff.readpff.
change (datapff.dp (layout_of fn t "ph256" 2 m q)) with "ph256"%string.
cbn [String.eqb Ascii.eqb Bool.eqb].
rewrite (read_ph256_records fn t m q recs Hrecs). cbn [bind].
unfold datapff.pixel_selected, datapff.pixel_index.
apply Z.eqb_neq in Hne. rewrite Hne. cbn [negb bind].
cbn [datapff.set_data datapff.data datapff.getattr of_option bind
     datapff.select].
unfold column. cbn [ncols rows].
change (Z.of_nat 256) with 256.
replace ((- (256) <=? i) && (i <? 256)) with true
  by (symmetry; apply andb_true_iff; split; [apply Z.leb_le|apply Z.ltb_lt]; lia).
cbn [bind]. rewrite map_map.
replace (if i <? 0 then i + 256 else i) with (i mod 256); [reflexivity|].
destruct (Z.ltb_spec i 0).
- symmetry. apply (Z.mod_unique i 256 (-1)); lia.
- apply Z.mod_small. lia.
Qed.

Lemma pixel_index_selects_column_witness :
  @datapff.readpff sample_runtime sample_pixelmap sample_decoder
    (concat [sample_record text_temp (-128); sample_record text_temp 1000])
    (-1) 0 (PixelInt (-2)) 0 "qfb" false
  = Ok (datapff.set_data sample_decoder (Column [126; 1254]),
        (Column [126; 1254], [])).
Proof.
apply (pixel_index_selects_column sample_runtime sample_pixelmap
         (sample_name "ph256") sample_decoder
         [sample_record text_temp (-128); sample_record text_temp 1000]
         0 0 (-2) "qfb"); try reflexivity.
- repeat constructor.
- lia.
- discriminate.
Defined.

(** X8. An integer [pixel] outside [-256, 256) makes [readpff] raise
    IndexError on a ph256 file of whole records, also on the empty
    file. *)
Theorem pixel_index_out_of_range (rt : PyRuntime) (pm : PixelMap)
  (fn : string) (self : datapff.t) (recs : list (list byte))
  (skip quabo i : Z) (ver : string) :
  datapff.__init__ fn = Ok self ->
  datapff.dp self = "ph256"%string ->
  datapff.bpp self = 2 ->
  Forall (fun r => length r = Z.to_nat (datapff.datasize self)) recs ->
  i < - 256 \/ 256 <= i ->
  datapff.readpff self (concat recs) (-1) skip (PixelInt i) quabo ver false
  = Raise IndexError.
Proof.
intros E Hdp Hbpp Hrecs Hi.
destruct (init_ph256 fn self E Hdp Hbpp) as (t & m & q & ->).
change (Z.to_nat (datapff.datasize (layout_of fn t "ph256" 2 m q)))
  with 636%nat in Hrecs.
unfold datapff.readpff.
change (datapff.dp (layout_of fn t "ph256" 2 m q)) with "ph256"%string.
cbn [String.eqb Ascii.eqb Bool.eqb].
rewrite (read_ph256_records fn t m q recs Hrecs). cbn [bind].
unfold datapff.pixel_selected, datapff.pixel_index.
replace (i =? -1) with false by (symmetry; apply Z.eqb_neq; lia).
cbn [negb bind].
cbn [datapff.set_data datapff.data datapff.getattr of_option bind
     datapff.select].
unfold column. cbn [ncols rows].
change (Z.of_nat 256) with 256.
replace ((- (256) <=? i) && (i <? 256)) with false; [reflexivity|].
symmetry. apply andb_false_iff.
destruct Hi; [left; apply Z.leb_gt|right; apply Z.ltb_ge]; lia.
Qed.

Lemma pixel_index_out_of_range_witness :
  @datapff.readpff sample_runtime sample_pixelmap sample_decoder
    (concat []) (-1) 0 (PixelInt 256) 0 "qfb" false
  = Raise IndexError.
Proof.
apply (pixel_index_out_of_range sample_runtime sample_pixelmap
         (sample_name "ph256") sample_decoder [] 0 0 256 "qfb");
  try reflexivity.
- constructor.
- lia.
Defined.

(** ** readpff: a second call *)

Section ReadAgain.
Context {rt : PyRuntime} {pm : PixelMap}.

(** The branch for ph256 reads the file anew and replaces [self.data]:
    run again on the object it returned, with or without another
    [self.data], and without metadata, it returns that object. *)
Lemma read_ph256_again (self s1 : datapff.t) (file : list byte) (samples : Z)
  (want_metadata : bool) :
  datapff.read_ph256 self file samples want_metadata = Ok s1 ->
  datapff.dp s1 = datapff.dp self
  /\ datapff.read_ph256 s1 file samples false = Ok s1
  /\ forall d, datapff.read_ph256 (datapff.set_data s1 d) file samples false
               = Ok s1.
Proof.
unfold datapff.read_ph256.
destruct (datapff.read_table self file samples) as [tmp|] eqn:Et;
  [|discriminate].
cbn [bind].
destruct (truediv (datapff._md_size self) (datapff.bpp self)) as [w|] eqn:Ew;
  [|discriminate].
cbn [bind].
destruct (if want_metadata then _ else _) as [md|]; [|discriminate].
cbn [bind]. intros [= <-].
split; [reflexivity|].
unfold datapff.read_table in *.
cbn [datapff.set_data datapff.fn datapff.startdt datapff.dp datapff.bpp
     datapff.module datapff.seqno datapff._md_size datapff._pixels
     datapff._d_size datapff.datasize datapff.dtype datapff.dtpye
     datapff.metadata datapff.data].
rewrite Et, Ew. cbn [bind]. now split.
Qed.

End ReadAgain.

(** X9. [readpff] opens the file anew on every call and replaces
    [self.data]: after a call that returned on a ph256 decoder, the same
    call without metadata returns the same pair again and leaves the
    object as it is.  The mapping it returns is the one the object
    holds, not an empty one. *)
Theorem reading_again_returns_the_same (rt : PyRuntime) (pm : PixelMap)
  (self self1 : datapff.t) (file : list byte) (samples skip skip' : Z)
  (pixel : pixel_arg) (quabo : Z) (ver : string) (want_metadata : bool)
  (out : pydata * dict (list JSON)) :
  datapff.dp self = "ph256"%string ->
  datapff.readpff self file samples skip pixel quabo ver want_metadata
  = Ok (self1, out) ->
  datapff.readpff self1 file samples skip' pixel quabo ver false
  = Ok (self1, out)
  /\ snd out = datapff.metadata self1.
Proof.
intros Hdp. unfold datapff.readpff at 1. rewrite Hdp.
cbn [String.eqb Ascii.eqb Bool.eqb].
destruct (datapff.read_ph256 self file samples want_metadata) as [s1|] eqn:E1;
  [|discriminate].
destruct (read_ph256_again self s1 file samples want_metadata E1)
  as (Hdp1 & Hagain & Hagain').
cbn [bind]. unfold datapff.readpff.
destruct (datapff.pixel_selected pixel).
- destruct (datapff.pixel_index pixel quabo ver) as [ind|] eqn:Ei;
    [|discriminate].
  cbn [bind].
  destruct (datapff.getattr (datapff.data s1)) as [d|] eqn:Ed; [|discriminate].
  cbn [bind].
  destruct (datapff.select d ind) as [d'|] eqn:Es; [|discriminate].
  cbn [bind datapff.set_data datapff.data datapff.getattr of_option
       datapff.metadata].
  intros [= <- <-].
  change (datapff.dp (datapff.set_data s1 d')) with (datapff.dp s1).
  rewrite Hdp1, Hdp. cbn [String.eqb Ascii.eqb Bool.eqb].
  rewrite Hagain'. cbn [bind]. rewrite Ed. cbn [bind]. rewrite Es.
  cbn [bind datapff.set_data datapff.data datapff.getattr of_option
       datapff.metadata snd].
  now split.
- cbn [bind].
  destruct (datapff.getattr (datapff.data s1)) as [d|] eqn:Ed; [|discriminate].
  cbn [bind]. intros [= Hs Hout]. subst self1 out.
  rewrite Hdp1, Hdp. cbn [String.eqb Ascii.eqb Bool.eqb].
  rewrite Hagain. cbn [bind]. rewrite Ed. cbn [bind snd]. now split.
Qed.

Lemma reading_again_returns_the_same_witness :
  exists self1 out,
    @datapff.readpff sample_runtime sample_pixelmap sample_decoder
      (sample_record text_x 0) (-1) 0 (PixelList [1; 2]) 0 "qfb" true
    = Ok (self1, out)
    /\ @datapff.readpff sample_runtime sample_pixelmap self1
         (sample_record text_x 0) (-1) 7 (PixelList [1; 2]) 0 "qfb" false
       = Ok (self1, out)
    /\ snd out = datapff.metadata self1.
Proof.
destruct (@datapff.readpff sample_runtime sample_pixelmap sample_decoder
            (sample_record text_x 0) (-1) 0 (PixelList [1; 2]) 0 "qfb" true)
  as [[self1 out]|e] eqn:E; [|vm_compute in E; discriminate].
exists self1, out. split; [reflexivity|].
exact (reading_again_returns_the_same sample_runtime sample_pixelmap
         sample_decoder self1 (sample_record text_x 0) (-1) 0 7
         (PixelList [1; 2]) 0 "qfb" true out eq_refl E).
Defined.

(** ** numpy: the bytes of a 16-bit view *)

Lemma byte_val_range (b : byte) : 0 <= byte_val b < 256.
Proof.
unfold byte_val. pose proof (Byte.to_N_bounded b) as H. lia.
Qed.

Lemma byte_of_val (b : byte) (k : Z) : byte_of (byte_val b + 256 * k) = b.
Proof.
unfold byte_of.
replace ((byte_val b + 256 * k) mod 256) with (byte_val b).
- unfold byte_val. now rewrite N2Z.id, Byte.of_to_N.
- pose proof (byte_val_range b).
  apply (Z.mod_unique _ 256 k (byte_val b)); lia.
Qed.

Lemma enc16_dec16 (lo hi : byte) : enc16 (dec16 true lo hi) = [lo; hi].
Proof.
pose proof (byte_val_range lo) as Hlo. pose proof (byte_val_range hi) as Hhi.
unfold enc16, dec16. cbn [andb].
destruct (32768 <=? byte_val lo + 256 * byte_val hi).
- replace (byte_val lo + 256 * byte_val hi - 65536)
    with (byte_val lo + 256 * (byte_val hi - 256)) by lia.
  rewrite byte_of_val. f_equal.
  replace ((byte_val lo + 256 * (byte_val hi - 256)) / 256)
    with (byte_val hi + 256 * (-1)).
  + now rewrite byte_of_val.
  + apply (Z.div_unique _ 256 _ (byte_val lo)); lia.
- rewrite byte_of_val. f_equal.
  replace ((byte_val lo + 256 * byte_val hi) / 256)
    with (byte_val hi + 256 * 0).
  + now rewrite byte_of_val.
  + apply (Z.div_unique _ 256 _ (byte_val lo)); lia.
Qed.

Lemma tobytes_view16 (n : nat) (b : list byte) :
  length b = (2 * n)%nat -> flat_map enc16 (view16 true b) = b.
Proof.
revert b. induction n as [|n IH]; intros b Hlen.
- destruct b; [reflexivity|discriminate].
- destruct b as [|lo [|hi b]]; try (simpl in Hlen; lia).
  cbn [view16 flat_map]. rewrite enc16_dec16, IH by (simpl in Hlen; lia).
  reflexivity.
Qed.

Lemma view16_firstn (signed : bool) (k : nat) (b : list byte) :
  view16 signed (firstn (2 * k) b) = firstn k (view16 signed b).
Proof.
revert b. induction k as [|k IH]; intros b; [reflexivity|].
replace (2 * S k)%nat with (S (S (2 * k))) by lia.
destruct b as [|lo [|hi b]]; try reflexivity.
cbn [firstn view16]. now rewrite IH.
Qed.

(** The metadata columns of the table of a file of whole records, as
    bytes: the first 122 bytes of every record. *)
Lemma metadata_bytes_records (recs : list (list byte)) :
  Forall (fun r => length r = 636%nat) recs ->
  tobytes int16 (slice_cols (mkArr 318 (map (view16 true) recs)) 0 (Some 61))
  = concat (map (firstn 122) recs).
Proof.
intros Hrecs. unfold tobytes, slice_cols. cbn [ncols rows].
change (slice_bound 0 318) with 0%nat.
change (slice_bound 61 318) with 61%nat.
change (61 - 0)%nat with 61%nat.
rewrite map_map. cbn [skipn].
induction Hrecs as [|r recs Hr _ IH]; [reflexivity|].
cbn [map flat_map concat]. rewrite IH. f_equal.
rewrite <- (view16_firstn true 61 r).
apply (tobytes_view16 61). rewrite length_firstn, Hr. reflexivity.
Qed.

(** ** readpff: metadata that needs no renaming *)

Section MetadataSeries.
Context {rt : PyRuntime} {pm : PixelMap}.

Lemma md_fields_count (items : list (string * JSON)) :
  forall M : dict (list JSON),
  (forall k, In k (map fst items) -> In k (keys M)) ->
  exists M', foldM (fun m kv => dict_append (fst kv) (snd kv) m) items M = Ok M'
             /\ keys M' = keys M
             /\ forall f, slen f M'
                          = (slen f M + count_occ string_dec (map fst items) f)%nat.
Proof.
induction items as [|[k v] items IH]; intros M Hall.
- exists M. repeat split. intros f. simpl. lia.
- destruct (dict_append_present M k v) as (M1 & E1 & Hk1 & Hs1);
    [apply Hall; now left|].
  destruct (IH M1) as (M' & E' & Hk' & Hs').
  + intros k' Hk'. rewrite Hk1. apply Hall. now right.
  + exists M'. cbn [foldM fst snd]. rewrite E1. cbn [bind].
    split; [exact E'|]. split; [congruence|].
    intros f. rewrite Hs', Hs1. cbn [map fst count_occ].
    destruct (string_dec k f); lia.
Qed.

(** One metadata line more. *)
Lemma md_line_record (fields : list string) (n : nat) (M : dict (list JSON))
  (line : list byte) :
  fields <> [] -> NoDup fields ->
  ~ In "TEMP1"%string fields -> ~ In "TEMP2"%string fields ->
  md_record fields line -> md_state fields n M ->
  exists M', datapff.md_line M line = Ok M' /\ md_series fields (S n) M'.
Proof.
intros Hne Hnd H1 H2 (items & Eline & HP) Hstate.
assert (Hin : forall f, In f (map fst items) <-> In f fields).
{ intros f. split; apply Permutation_in; [|symmetry]; exact HP. }
assert (Hone : forall f, In f fields ->
                         count_occ string_dec (map fst items) f = 1%nat).
{ intros f Hf. apply NoDup_count_occ'; [|now apply Hin].
  apply (Permutation_NoDup (l := fields)); [now symmetry|exact Hnd]. }
assert (Hfix : map rename_temp (map fst items) = map fst items).
{ rewrite <- (map_id (map fst items)) at 2. apply map_ext_in.
  intros k Hk. apply Hin in Hk. apply rename_temp_fixed; now intros ->. }
assert (Hseries : forall M0 M' : dict (list JSON),
  (forall f, In f (keys M0) <-> In f fields) ->
  (forall f, In f fields -> slen f M0 = n) ->
  foldM (fun m kv => dict_append (fst kv) (snd kv) m) items M0 = Ok M' ->
  md_series fields (S n) M').
{ intros M0 M' Hk0 Hs0 E.
  destruct (md_fields_count items M0) as (M2 & E2 & Hk2 & Hs2).
  { intros k Hk. now apply Hk0, Hin. }
  rewrite E2 in E. injection E as <-. split.
  - intros f. rewrite Hk2. apply Hk0.
  - intros f l Hget.
    assert (Hf : In f fields).
    { apply Hk0. rewrite <- Hk2. apply dict_get_In. congruence. }
    specialize (Hs2 f). unfold slen at 1 in Hs2. rewrite Hget in Hs2.
    rewrite Hs2, (Hs0 f Hf), (Hone f Hf). lia. }
unfold datapff.md_line. rewrite Eline. cbn [of_option bind].
destruct Hstate as [[-> ->]|[Hkeys Hlen]].
- cbn [template_of bind items_of].
  destruct (md_fields_count items (_gen_dict_template items))
    as (M' & E & _ & _).
  { intros k Hk. apply template_keys. rewrite Hfix. exact Hk. }
  exists M'. split; [exact E|].
  apply (Hseries (_gen_dict_template items) M'); [| |exact E].
  + intros f. rewrite template_keys, Hfix. apply Hin.
  + intros f _. unfold slen.
    pose proof (template_slen items f) as H. exact H.
- destruct M as [|e M].
  { destruct fields as [|f fields]; [now destruct Hne|].
    destruct (proj2 (Hkeys f) (or_introl eq_refl)). }
  cbn [bind items_of].
  destruct (md_fields_count items (e :: M)) as (M' & E & _ & _).
  { intros k Hk. now apply Hkeys, Hin. }
  exists M'. split; [exact E|].
  apply (Hseries (e :: M) M'); [exact Hkeys| |exact E].
  intros f Hf. unfold slen.
  destruct (dict_get f (e :: M)) as [l|] eqn:Eg; [now apply (Hlen f)|].
  apply Hkeys, dict_get_In in Hf. now rewrite Eg in Hf.
Qed.

Lemma md_lines_records (fields : list string) (lines : list (list byte)) :
  fields <> [] -> NoDup fields ->
  ~ In "TEMP1"%string fields -> ~ In "TEMP2"%string fields ->
  Forall (md_record fields) lines ->
  forall n M, md_state fields n M ->
  exists M', foldM datapff.md_line lines M = Ok M'
             /\ md_state fields (n + length lines) M'.
Proof.
intros Hne Hnd H1 H2.
induction 1 as [|line lines Hline _ IH]; intros n M Hstate.
- exists M. rewrite Nat.add_0_r. now split.
- destruct (md_line_record fields n M line Hne Hnd H1 H2 Hline Hstate)
    as (M1 & E1 & Hs1).
  destruct (IH (S n) M1 (or_intror Hs1)) as (M' & E' & H').
  exists M'. cbn [foldM length]. rewrite E1. cbn [bind].
  split; [exact E'|]. now rewrite Nat.add_succ_r.
Qed.

(** The branch for ph256 on a file of whole records, with metadata: the
    loop runs over the lines of the first 122 bytes of every record. *)
Lemma read_ph256_metadata (fn : string) (t : datetime) (m q : Z)
  (M : dict (list JSON)) (d0 : option pydata) (recs : list (list byte)) :
  Forall (fun r => length r = 636%nat) recs ->
  datapff.read_ph256 (ph256_object fn t m q M d0) (concat recs) (-1) true
  = M' <- foldM datapff.md_line
            (splitlines (concat (map (firstn 122) recs))) M ;;
    Ok (ph256_object fn t m q M'
          (Some (Table (mkArr 256
                   (map (fun r => view16 true (skipn 124 r)) recs))))).
Proof.
intros Hrecs. unfold datapff.read_ph256.
change (datapff.read_table (ph256_object fn t m q M d0) (concat recs) (-1))
  with (datapff.read_table (layout_of fn t "ph256" 2 m q) (concat recs) (-1)).
rewrite (read_table_records fn t m q recs Hrecs). cbn [bind].
unfold datapff.metadataraw.
cbn [ph256_object datapff._md_size datapff.bpp datapff.dtype datapff.metadata
     datapff.fn datapff.startdt datapff.dp datapff.module datapff.seqno
     datapff._pixels datapff._d_size datapff.datasize datapff.dtpye
     truediv Z.eqb bind int_of_num datapff.getattr of_option].
change (Z.quot 124 2) with 62. change (62 - 1) with 61.
rewrite (data_columns_records recs Hrecs),
  (metadata_bytes_records recs Hrecs).
reflexivity.
Qed.

End MetadataSeries.

(** X10. Metadata whose field names need no renaming is taken in one
    value per line, and is kept between calls.  For a ph256 decoder with
    two bytes per pixel and a file of whole records, the metadata text
    is the first 122 bytes of every record; when each of its L lines is
    an object with the same field names (none of them TEMP1 or TEMP2),
    [readpff(metadata=True)] returns a mapping with a series of length
    L for each field, and a second call returns series of length 2L. *)
Theorem metadata_has_one_value_per_line (rt : PyRuntime) (pm : PixelMap)
  (fn : string) (self : datapff.t) (recs : list (list byte))
  (skip quabo : Z) (ver : string) (fields : list string) :
  datapff.__init__ fn = Ok self ->
  datapff.dp self = "ph256"%string ->
  datapff.bpp self = 2 ->
  Forall (fun r => length r = Z.to_nat (datapff.datasize self)) recs ->
  Forall (md_record fields) (splitlines (concat (map (firstn 122) recs))) ->
  fields <> [] -> NoDup fields ->
  ~ In "TEMP1"%string fields -> ~ In "TEMP2"%string fields ->
  let L := length (splitlines (concat (map (firstn 122) recs))) in
  exists self1 self2 d M1 M2,
    datapff.readpff self (concat recs) (-1) skip (PixelInt (-1)) quabo ver true
    = Ok (self1, (d, M1))
    /\ md_state fields L M1
    /\ datapff.readpff self1 (concat recs) (-1) skip (PixelInt (-1)) quabo ver
         true = Ok (self2, (d, M2))
    /\ md_state fields (L + L) M2.
Proof.
intros E Hdp Hbpp Hrecs Hlines Hne Hnd H1 H2 L.
destruct (init_ph256 fn self E Hdp Hbpp) as (t & m & q & ->).
change (Z.to_nat (datapff.datasize (layout_of fn t "ph256" 2 m q)))
  with 636%nat in Hrecs.
change (layout_of fn t "ph256" 2 m q) with (ph256_object fn t m q [] None).
destruct (md_lines_records fields _ Hne Hnd H1 H2 Hlines 0%nat [])
  as (M1 & E1 & Hs1); [left; now split|].
destruct (md_lines_records fields _ Hne Hnd H1 H2 Hlines _ M1 Hs1)
  as (M2 & E2 & Hs2).
cbn [Nat.add] in Hs1, Hs2.
eexists. eexists. eexists. exists M1, M2.
split; [|split; [exact Hs1|split; [|exact Hs2]]].
- unfold datapff.readpff. cbn [ph256_object datapff.dp].
  cbn [String.eqb Ascii.eqb Bool.eqb].
  change (datapff.mk fn t "ph256" 2 m q 124 256 512 636 (Some int16) None
            [] None) with (ph256_object fn t m q [] None).
  rewrite (read_ph256_metadata fn t m q [] None recs Hrecs), E1.
  reflexivity.
- unfold datapff.readpff. cbn [ph256_object datapff.dp].
  cbn [String.eqb Ascii.eqb Bool.eqb].
  try match goal with
  | |- context [datapff.read_ph256 (datapff.mk _ _ _ _ _ _ _ _ _ _ _ _ ?M ?d)] =>
      change (datapff.mk fn t "ph256" 2 m q 124 256 512 636 (Some int16) None
                M d) with (ph256_object fn t m q M d)
  end.
  rewrite (read_ph256_metadata fn t m q M1 _ recs Hrecs), E2.
  reflexivity.
Qed.

Lemma metadata_has_one_value_per_line_witness :
  exists self1 self2 d M1 M2,
    @datapff.readpff sample_runtime sample_pixelmap sample_decoder
      (concat [sample_record text_x 0]) (-1) 0 (PixelInt (-1)) 0 "qfb" true
    = Ok (self1, (d, M1))
    /\ md_state ["X"%string] 3 M1
    /\ @datapff.readpff sample_runtime sample_pixelmap self1
         (concat [sample_record text_x 0]) (-1) 0 (PixelInt (-1)) 0 "qfb" true
       = Ok (self2, (d, M2))
    /\ md_state ["X"%string] (3 + 3) M2.
Proof.
apply (metadata_has_one_value_per_line sample_runtime sample_pixelmap
         (sample_name "ph256") sample_decoder [sample_record text_x 0]
         0 0 "qfb" ["X"%string]); try reflexivity.
- repeat constructor.
- apply Forall_forall. intros l Hl. vm_compute in Hl.
  exists [("X"%string, JInt 3)].
  destruct Hl as [<-|[<-|[<-|[]]]];
    (split; [reflexivity|apply Permutation_refl]).
- discriminate.
- repeat constructor. intros [].
- simpl. intuition discriminate.
- simpl. intuition discriminate.
Defined.

(** X11. A metadata line that is not valid JSON is not skipped: for a
    ph256 decoder with two bytes per pixel and a file of whole records,
    when the lines before it are taken in, [readpff(metadata=True)]
    raises ValueError, whatever the pixel selector. *)
Theorem corrupt_metadata_is_fatal (rt : PyRuntime) (pm : PixelMap)
  (fn : string) (self : datapff.t) (recs : list (list byte))
  (skip : Z) (pixel : pixel_arg) (quabo : Z) (ver : string)
  (l1 l2 : list (list byte)) (bad : list byte) (M1 : dict (list JSON)) :
  datapff.__init__ fn = Ok self ->
  datapff.dp self = "ph256"%string ->
  datapff.bpp self = 2 ->
  Forall (fun r => length r = Z.to_nat (datapff.datasize self)) recs ->
  splitlines (concat (map (firstn 122) recs)) = l1 ++ bad :: l2 ->
  foldM datapff.md_line l1 [] = Ok M1 ->
  json_loads_utf8 bad = None ->
  datapff.readpff self (concat recs) (-1) skip pixel quabo ver true
  = Raise ValueError.
Proof.
intros E Hdp Hbpp Hrecs Hlines E1 Ebad.
destruct (init_ph256 fn self E Hdp Hbpp) as (t & m & q & ->).
change (Z.to_nat (datapff.datasize (layout_of fn t "ph256" 2 m q)))
  with 636%nat in Hrecs.
change (layout_of fn t "ph256" 2 m q) with (ph256_object fn t m q [] None).
unfold datapff.readpff. cbn [ph256_object datapff.dp].
cbn [String.eqb Ascii.eqb Bool.eqb].
change (datapff.mk fn t "ph256" 2 m q 124 256 512 636 (Some int16) None
          [] None) with (ph256_object fn t m q [] None).
rewrite (read_ph256_metadata fn t m q [] None recs Hrecs).
rewrite Hlines, foldM_app, E1. cbn [bind foldM].
unfold datapff.md_line at 1. rewrite Ebad. reflexivity.
Qed.

Lemma corrupt_metadata_is_fatal_witness :
  @datapff.readpff sample_runtime sample_pixelmap sample_decoder
    (concat [sample_record text_cut 0]) (-1) 0 (PixelInt 5) 0 "qfb" true
  = Raise ValueError.
Proof.
eapply (corrupt_metadata_is_fatal sample_runtime sample_pixelmap
          (sample_name "ph256") sample_decoder [sample_record text_cut 0]
          0 (PixelInt 5) 0 "qfb" [list_byte_of_string doc_md_x] _
          (list_byte_of_string doc_hk_cut) _); try reflexivity.
repeat constructor.
Defined.

(** ** __init__: what a filename must look like *)

Lemma split_app_sep (c : ascii) (a b : string) :
  split c (a ++ String c b) = split c a ++ split c b.
Proof.
induction a as [|x a IH]; simpl.
- now rewrite Ascii.eqb_refl.
- destruct (Ascii.eqb x c); [now rewrite IH|].
  rewrite IH. destruct (split c a) as [|p ps] eqn:E; [|reflexivity].
  now apply split_nonempty in E.
Qed.

Section Filename.
Context {rt : PyRuntime}.

Lemma subfield_ok (info : list string) (i : nat) (y : string) :
  datapff.subfield info i = Ok y ->
  exists x, nth_error info i = Some x /\ no_char "_" x = false.
Proof.
unfold datapff.subfield, getitem.
destruct (nth_error info i) as [x|]; [|discriminate]. cbn [bind].
intros E. exists x. split; [reflexivity|].
destruct (no_char "_" x) eqn:Hfree; [|reflexivity].
rewrite (split_free "_" x Hfree) in E. discriminate.
Qed.

End Filename.

(** X12. [__init__] returns only for a filename with at least five
    fields between dots, each of the first five with an underscore in
    it; any other filename raises. *)
Theorem init_needs_five_fields (rt : PyRuntime) (fn : string)
  (self : datapff.t) :
  datapff.__init__ fn = Ok self ->
  forall i, (i < 5)%nat ->
    exists x, nth_error (split "." fn) i = Some x /\ no_char "_" x = false.
Proof.
unfold datapff.__init__. intros E.
destruct (datapff.subfield (split "." fn) 0) as [y0|] eqn:E0; [|discriminate].
cbn [bind] in E.
destruct (of_option ValueError (strptime y0)); [|discriminate].
cbn [bind] in E.
destruct (datapff.subfield (split "." fn) 1) as [y1|] eqn:E1; [|discriminate].
cbn [bind] in E.
destruct (datapff.subfield (split "." fn) 2) as [y2|] eqn:E2; [|discriminate].
cbn [bind] in E.
destruct (of_option ValueError (int_of_str y2)); [|discriminate].
cbn [bind] in E.
destruct (datapff.subfield (split "." fn) 3) as [y3|] eqn:E3; [|discriminate].
cbn [bind] in E.
destruct (of_option ValueError (int_of_str y3)); [|discriminate].
cbn [bind] in E.
destruct (datapff.subfield (split "." fn) 4) as [y4|] eqn:E4; [|discriminate].
clear E. intros i Hi.
assert (Hcases : (i = 0 \/ i = 1 \/ i = 2 \/ i = 3 \/ i = 4)%nat) by lia.
destruct Hcases as [-> | [-> | [-> | [-> | ->]]]];
  eauto using subfield_ok.
Qed.

Lemma init_needs_five_fields_witness :
  exists x, nth_error (split "." (sample_name "ph256")) 4 = Some x
            /\ no_char "_" x = false.
Proof.
apply (init_needs_five_fields sample_runtime (sample_name "ph256")
         sample_decoder eq_refl 4%nat).
repeat constructor.
Defined.

(** X13. The layout of every decoder [__init__] returns: the data size
    is the pixel count times the bytes per pixel, the record size is the
    metadata size plus the data size, the metadata size and pixel count
    are 124 and 256 for the tag ph256 and 492 and 1024 for every other
    tag, no metadata and no data are held, and [dtype] is unassigned
    exactly for the tag img16.  With tag ph256 and two bytes per pixel
    the record size is 636. *)
Theorem init_layout_invariant (rt : PyRuntime) (fn : string)
  (self : datapff.t) :
  datapff.__init__ fn = Ok self ->
  datapff.fn self = fn
  /\ datapff._d_size self = datapff._pixels self * datapff.bpp self
  /\ datapff.datasize self = datapff._md_size self + datapff._d_size self
  /\ (if String.eqb (datapff.dp self) "ph256"
      then datapff._md_size self = 124 /\ datapff._pixels self = 256
      else datapff._md_size self = 492 /\ datapff._pixels self = 1024)
  /\ datapff.metadata self = [] /\ datapff.data self = None
  /\ (datapff.dtype self = None <-> datapff.dp self = "img16"%string)
  /\ (datapff.dp self = "ph256"%string -> datapff.bpp self = 2 ->
      datapff.datasize self = 636).
Proof.
intros E. destruct (init_layout fn self E) as (t & v & b & m & q & ->).
unfold layout_of.
cbn [datapff.fn datapff._d_size datapff._pixels datapff.bpp datapff.datasize
     datapff._md_size datapff.dp datapff.metadata datapff.data datapff.dtype].
repeat split.
- destruct (String.eqb v "ph256"); now split.
- destruct (String.eqb_spec v "ph256") as [->|H1]; [discriminate|].
  destruct (String.eqb_spec v "ph1024") as [->|H2]; [discriminate|].
  cbn [orb]. destruct (String.eqb_spec v "img16"); [easy|discriminate].
- intros ->. reflexivity.
- intros -> ->. reflexivity.
Qed.

Lemma init_layout_invariant_witness :
  datapff.fn sample_decoder = sample_name "ph256"
  /\ datapff._d_size sample_decoder
     = datapff._pixels sample_decoder * datapff.bpp sample_decoder
  /\ datapff.datasize sample_decoder
     = datapff._md_size sample_decoder + datapff._d_size sample_decoder
  /\ (if String.eqb (datapff.dp sample_decoder) "ph256"
      then datapff._md_size sample_decoder = 124
           /\ datapff._pixels sample_decoder = 256
      else datapff._md_size sample_decoder = 492
           /\ datapff._pixels sample_decoder = 1024)
  /\ datapff.metadata sample_decoder = [] /\ datapff.data sample_decoder = None
  /\ (datapff.dtype sample_decoder = None
      <-> datapff.dp sample_decoder = "img16"%string)
  /\ (datapff.dp sample_decoder = "ph256"%string ->
      datapff.bpp sample_decoder = 2 ->
      datapff.datasize sample_decoder = 636).
Proof.
exact (init_layout_invariant sample_runtime (sample_name "ph256")
         sample_decoder eq_refl).
Defined.

(** X14. Whatever follows the fifth field of a filename is not read: a
    schema filename with an extension after a dot (as in [.pff]) gives
    the decoder the filename without it gives, but for the attribute
    [fn]. *)
Theorem init_ignores_extension (rt : PyRuntime)
  (p ts tag v b m q ext : string) (t : datetime) (zb zm zq : Z) :
  sep_free p = true -> sep_free ts = true -> sep_free tag = true ->
  sep_free v = true -> sep_free b = true -> sep_free m = true ->
  sep_free q = true ->
  strptime ts = Some t -> int_of_str b = Some zb ->
  int_of_str m = Some zm -> int_of_str q = Some zq ->
  datapff.__init__ (schema_name p ts tag v b m q ++ String "." ext)
  = Ok (layout_of (schema_name p ts tag v b m q ++ String "." ext)
          t v zb zm zq).
Proof.
intros Hp Hts Htag Hv Hb Hm Hq Et Eb Em Eq.
unfold datapff.__init__, datapff.subfield.
rewrite split_app_sep.
rewrite (split_schema_name _ _ _ _ _ _ _ Hp Hts Htag Hv Hb Hm Hq).
cbn [app getitem nth_error bind].
rewrite (subfield_joined _ _ Hp Hts), (subfield_joined _ _ Htag Hv),
  (subfield_joined "bpp" _ eq_refl Hb),
  (subfield_joined "module" _ eq_refl Hm),
  (subfield_joined "seqno" _ eq_refl Hq).
cbn [bind]. rewrite Et, Eb, Em, Eq. cbn [of_option bind].
unfold layout_of.
destruct (String.eqb v "ph256"); cbn [orb]; [reflexivity|].
destruct (String.eqb v "ph1024"); [reflexivity|].
destruct (String.eqb v "img16"); reflexivity.
Qed.

Lemma init_ignores_extension_witness :
  @datapff.__init__ sample_runtime (sample_name "ph256" ++ ".pff")
  = Ok (layout_of (sample_name "ph256" ++ ".pff")
          (mkDatetime 2022 5 11 23 38 29) "ph256" 2 1 0).
Proof.
apply (init_ignores_extension sample_runtime
         "start" "2022-05-11T23:38:29Z" "dp" "ph256" "2" "1" "0" "pff");
  reflexivity.
Defined.

(** ** qconfig *)

Lemma key_of_path (dir name ext : string) :
  no_char "/" name = true -> no_char "." name = true ->
  no_char "/" ext = true ->
  qconfig.key_of (dir ++ String "/" (name ++ String "." ext)) = name.
Proof.
intros Hn1 Hn2 He. unfold qconfig.key_of.
rewrite split_app_sep.
assert (Hfree : no_char "/" (name ++ String "." ext) = true).
{ rewrite no_char_app, Hn1. simpl. exact He. }
rewrite (split_free "/" _ Hfree), last_last.
now rewrite (split_cons_char "." name ext Hn2).
Qed.

Lemma Forall_dict_set {V : Type} (P : string * V -> Prop) (d : dict V)
  (k : string) (v : V) :
  Forall P d -> (forall k', P (k', v)) -> Forall P (dict_set k v d).
Proof.
intros Hd Hv. induction Hd as [|[k0 v0] d H0 Hd IH]; simpl.
- repeat constructor. apply Hv.
- destruct (String.eqb k0 k); constructor; auto.
Qed.

Section Config.
Context {rt : PyRuntime} {b16 : PyIntBase16}.

(** A file of another key leaves an entry as it is. *)
Lemma load_file_other (cfg cfg' : dict JSON) (file : string * list byte)
  (k : string) :
  qconfig.key_of (fst file) <> k ->
  qconfig.load_file cfg file = Ok cfg' ->
  dict_get k cfg' = dict_get k cfg.
Proof.
intros Hne. unfold qconfig.load_file.
destruct (json_loads (snd file)) as [config|]; [|discriminate].
cbn [of_option bind].
destruct (items_of config) as [items|]; [|discriminate]. cbn [bind].
intros E.
rewrite <- (dict_get_set_other cfg _ k (JObj []) Hne).
revert E.
apply (foldM_invariant (qconfig.load_item (qconfig.key_of (fst file)) config)
         (fun s => dict_get k s
                   = dict_get k (dict_set (qconfig.key_of (fst file))
                                          (JObj []) cfg)));
  [|reflexivity].
intros s a s' Hs. unfold qconfig.load_item.
destruct (String.prefix "quabo_config" (qconfig.key_of (fst file))).
- destruct (qconfig.quabo_value (snd a)); [|discriminate]. cbn [bind].
  destruct (dict_lookup _ s) as [entry|]; [|discriminate]. cbn [bind].
  destruct entry; try discriminate.
  intros [= <-]. now rewrite dict_get_set_other.
- intros [= <-]. now rewrite dict_get_set_other.
Qed.

(** A file whose key does not start with quabo_config: the entry is the
    parsed object. *)
Lemma load_file_plain (cfg cfg' : dict JSON) (file : string * list byte)
  (items : list (string * JSON)) :
  String.prefix "quabo_config" (qconfig.key_of (fst file)) = false ->
  json_loads (snd file) = Some (JObj items) ->
  qconfig.load_file cfg file = Ok cfg' ->
  dict_get (qconfig.key_of (fst file)) cfg' = Some (JObj items).
Proof.
intros Hplain Efile. unfold qconfig.load_file. rewrite Efile.
cbn [of_option bind items_of].
assert (Hloop : forall its cfg0,
  dict_get (qconfig.key_of (fst file)) cfg0 = Some (JObj items) ->
  foldM (qconfig.load_item (qconfig.key_of (fst file)) (JObj items)) its cfg0
  = Ok cfg' ->
  dict_get (qconfig.key_of (fst file)) cfg' = Some (JObj items)).
{ intros its cfg0.
  apply (foldM_invariant
           (qconfig.load_item (qconfig.key_of (fst file)) (JObj items))
           (fun s => dict_get (qconfig.key_of (fst file)) s
                     = Some (JObj items))).
  intros s a s' _. unfold qconfig.load_item. rewrite Hplain.
  intros [= <-]. apply dict_get_set_same. }
destruct items as [|kv items].
- cbn [foldM]. intros [= <-]. apply dict_get_set_same.
- cbn [foldM]. unfold qconfig.load_item at 1. rewrite Hplain. cbn [bind].
  apply Hloop. apply dict_get_set_same.
Qed.

Lemma parse_ints_shape (tmp : list string) :
  forall (acc l : list JSON),
  foldM (fun acc vv => z <- qconfig.parse_int vv ;; Ok (acc ++ [JInt z])) tmp acc
  = Ok l ->
  exists zs, length zs = length tmp /\ l = acc ++ map JInt zs.
Proof.
induction tmp as [|vv tmp IH]; intros acc l E.
- cbn [foldM] in E. injection E as <-. exists []. now rewrite app_nil_r.
- cbn [foldM] in E.
  destruct (qconfig.parse_int vv) as [z|]; [|discriminate].
  cbn [bind] in E. destruct (IH _ _ E) as (zs & Hlen & ->).
  exists (z :: zs). cbn [length map]. rewrite Hlen.
  now rewrite <- app_assoc.
Qed.

Lemma quabo_value_shape (v x : JSON) :
  qconfig.quabo_value v = Ok x -> quabo_shape x = true.
Proof.
unfold qconfig.quabo_value. destruct v as [| | | |s| |]; try discriminate.
destruct (Nat.eqb_spec (length (split "," s)) 4) as [Hlen|_].
- destruct (foldM _ (split "," s) []) as [l|] eqn:E; [|discriminate].
  cbn [bind]. intros [= <-].
  destruct (parse_ints_shape _ _ _ E) as (zs & Hzs & ->).
  rewrite Hlen in Hzs.
  destruct zs as [|a [|b [|c [|d [|? ?]]]]]; try discriminate. reflexivity.
- destruct (qconfig.parse_int s); [|discriminate]. cbn [bind].
  now intros [= <-].
Qed.

Lemma load_file_quabo_entries (cfg cfg' : dict JSON)
  (file : string * list byte) :
  quabo_entries cfg -> qconfig.load_file cfg file = Ok cfg' ->
  quabo_entries cfg'.
Proof.
intros Hcfg. unfold qconfig.load_file.
destruct (json_loads (snd file)) as [config|]; [|discriminate].
cbn [of_option bind].
destruct (items_of config) as [items|]; [|discriminate]. cbn [bind].
set (key := qconfig.key_of (fst file)). intros E.
assert (Hinv : quabo_entries cfg'
               \/ (String.prefix "quabo_config" key = false
                   /\ forall k, k <> key -> forall e,
                        String.prefix "quabo_config" k = true ->
                        dict_get k cfg' = Some e ->
                        exists d, e = JObj d
                          /\ Forall (fun kv => quabo_shape (snd kv) = true) d)).
2:{ destruct Hinv as [H|[Hq H]]; [exact H|].
    intros k e Hk Hget. apply (H k); [|exact Hk|exact Hget].
    intros Heq. rewrite Heq, Hq in Hk. discriminate. }
revert E.
apply (foldM_invariant (qconfig.load_item key config)
         (fun s => quabo_entries s
                   \/ (String.prefix "quabo_config" key = false
                       /\ forall k, k <> key -> forall e,
                            String.prefix "quabo_config" k = true ->
                            dict_get k s = Some e ->
                            exists d, e = JObj d
                              /\ Forall (fun kv => quabo_shape (snd kv) = true) d))).
- intros s a s' Hs. unfold qconfig.load_item.
  destruct (String.prefix "quabo_config" key) eqn:Hq.
  + destruct Hs as [Hs|[Hs _]]; [|discriminate].
    destruct (qconfig.quabo_value (snd a)) as [x|] eqn:Ex; [|discriminate].
    cbn [bind]. unfold dict_lookup.
    destruct (dict_get key s) as [entry|] eqn:Eg; [|discriminate].
    cbn [bind]. destruct entry as [| | | | | |d]; try discriminate.
    intros [= <-]. left. intros k e Hk Hget.
    destruct (string_dec key k) as [<-|Hne].
    * rewrite dict_get_set_same in Hget. injection Hget as <-.
      destruct (Hs key _ Hq Eg) as (d0 & [= <-] & Hd).
      eexists. split; [reflexivity|].
      apply Forall_dict_set; [exact Hd|].
      intros k'. exact (quabo_value_shape _ _ Ex).
    * rewrite dict_get_set_other in Hget by assumption.
      exact (Hs k e Hk Hget).
  + intros [= <-]. right. split; [reflexivity|].
    intros k Hne e Hk Hget.
    rewrite dict_get_set_other in Hget by (intros ->; now apply Hne).
    destruct Hs as [Hs|[_ Hs]]; [exact (Hs k e Hk Hget)|].
    exact (Hs k Hne e Hk Hget).
- left. intros k e Hk Hget.
  destruct (string_dec key k) as [<-|Hne].
  + rewrite dict_get_set_same in Hget. injection Hget as <-.
    exists []. now split.
  + rewrite dict_get_set_other in Hget by assumption.
    exact (Hcfg k e Hk Hget).
Qed.

End Config.

(** X15. A config file whose name does not start with quabo_config is
    stored as parsed, under the name of the file without directory and
    extension, when its content is a JSON object and no later file has
    the same key. *)
Theorem plain_config_is_stored_whole (rt : PyRuntime) (b16 : PyIntBase16)
  (f1 f2 : list (string * list byte)) (dir name ext : string)
  (content : list byte) (items : list (string * JSON)) (self : qconfig.t) :
  qconfig.__init__
    (f1 ++ ((dir ++ String "/" (name ++ String "." ext))%string, content)
        :: f2)
  = Ok self ->
  no_char "/" name = true -> no_char "." name = true ->
  no_char "/" ext = true ->
  String.prefix "quabo_config" name = false ->
  json_loads content = Some (JObj items) ->
  Forall (fun f => qconfig.key_of (fst f) <> name) f2 ->
  dict_get name (qconfig.config self) = Some (JObj items).
Proof.
intros E Hn1 Hn2 He Hplain Econtent Hlater.
unfold qconfig.__init__ in E. rewrite foldM_app in E.
destruct (foldM qconfig.load_file f1 []) as [cfg1|]; [|discriminate].
cbn [bind foldM] in E.
destruct (qconfig.load_file cfg1 _) as [cfg2|] eqn:E2; [|discriminate].
cbn [bind] in E.
destruct (foldM qconfig.load_file f2 cfg2) as [cfg|] eqn:E3; [|discriminate].
cbn [bind] in E. injection E as <-. cbn [qconfig.config].
apply (foldM_invariant_Forall qconfig.load_file
         (fun s => dict_get name s = Some (JObj items))
         (fun f => qconfig.key_of (fst f) <> name)
         (fun s a s' Ha Hs Ea => eq_trans (load_file_other s s' a name Ha Ea) Hs)
         f2 cfg2 cfg Hlater); [|exact E3].
pose proof (load_file_plain cfg1 cfg2
              ((dir ++ String "/" (name ++ String "." ext))%string, content)
              items) as H.
cbn [fst snd] in H. rewrite (key_of_path dir name ext Hn1 Hn2 He) in H.
exact (H Hplain Econtent E2).
Qed.

Lemma plain_config_is_stored_whole_witness :
  exists self,
    @qconfig.__init__ config_runtime sample_base16 sample_jfiles = Ok self
    /\ dict_get "obs_config" (qconfig.config self)
       = Some (JObj [("X"%string, JInt 4); ("Y"%string, JInt 5)]).
Proof.
eexists. split; [reflexivity|].
apply (plain_config_is_stored_whole config_runtime sample_base16
         [("cfg/quabo_config_1.json"%string, line_of doc_quabo)] []
         "cfg" "obs_config" "json" (line_of doc_md_xy));
  try reflexivity.
constructor.
Defined.

(** X16. Whatever files are loaded, when [qconfig] returns, every entry
    under a key that starts with quabo_config is a dict whose values
    are ints or lists of exactly four ints. *)
Theorem quabo_values_are_ints_or_quads (rt : PyRuntime) (b16 : PyIntBase16)
  (jfiles : list (string * list byte)) (self : qconfig.t) :
  qconfig.__init__ jfiles = Ok self ->
  quabo_entries (qconfig.config self).
Proof.
unfold qconfig.__init__.
destruct (foldM qconfig.load_file jfiles []) as [cfg|] eqn:E; [|discriminate].
cbn [bind]. intros [= <-]. cbn [qconfig.config].
apply (foldM_invariant qconfig.load_file quabo_entries
         (fun s a s' => load_file_quabo_entries s s' a) jfiles [] cfg);
  [|exact E].
intros k e _ Hget. discriminate.
Qed.

Lemma quabo_values_are_ints_or_quads_witness :
  exists self,
    @qconfig.__init__ config_runtime sample_base16 sample_jfiles = Ok self
    /\ dict_get "quabo_config_1" (qconfig.config self)
       = Some (JObj [("IP"%string, JInt 31);
                     ("GAIN"%string, JArr [JInt 1; JInt 2; JInt 3; JInt 40])])
    /\ quabo_entries (qconfig.config self).
Proof.
eexists. split; [reflexivity|]. split; [reflexivity|].
apply (quabo_values_are_ints_or_quads config_runtime sample_base16
         sample_jfiles).
reflexivity.
Defined.

Section ConfigErrors.
Context {rt : PyRuntime} {b16 : PyIntBase16}.

Lemma load_items_quabo (key : string) (config : JSON)
  (i1 : list (string * JSON)) :
  String.prefix "quabo_config" key = true ->
  Forall (fun kv => exists x, qconfig.quabo_value (snd kv) = Ok x) i1 ->
  forall (cfg0 : dict JSON) (d0 : list (string * JSON)),
  dict_get key cfg0 = Some (JObj d0) ->
  exists cfg1 d1,
    foldM (qconfig.load_item key config) i1 cfg0 = Ok cfg1
    /\ dict_get key cfg1 = Some (JObj d1).
Proof.
intros Hq. induction 1 as [|kv i1 [x Ex] _ IH]; intros cfg0 d0 Hget.
- now exists cfg0, d0.
- cbn [foldM]. unfold qconfig.load_item at 1. rewrite Hq, Ex.
  cbn [bind]. unfold dict_lookup. rewrite Hget. cbn [bind].
  apply (IH _ (dict_set (fst kv) x d0)). apply dict_get_set_same.
Qed.

End ConfigErrors.

(** X17. In a file whose key starts with quabo_config every value has
    to be a string: a value of another JSON type (number, list, object,
    true, false, null) ends [qconfig] with AttributeError, once the
    files and the fields before it have been taken in. *)
Theorem quabo_value_must_be_a_string (rt : PyRuntime) (b16 : PyIntBase16)
  (f1 f2 : list (string * list byte)) (path : string) (content : list byte)
  (cfg1 : dict JSON) (i1 i2 : list (string * JSON)) (k : string) (v : JSON) :
  foldM qconfig.load_file f1 [] = Ok cfg1 ->
  String.prefix "quabo_config" (qconfig.key_of path) = true ->
  json_loads content = Some (JObj (i1 ++ (k, v) :: i2)) ->
  Forall (fun kv => exists x, qconfig.quabo_value (snd kv) = Ok x) i1 ->
  (forall s, v <> JStr s) ->
  qconfig.__init__ (f1 ++ (path, content) :: f2) = Raise AttributeError.
Proof.
intros E1 Hq Econtent Hi1 Hv.
unfold qconfig.__init__. rewrite foldM_app, E1. cbn [bind foldM].
unfold qconfig.load_file at 1. cbn [fst snd]. rewrite Econtent.
cbn [of_option bind items_of]. rewrite foldM_app.
destruct (load_items_quabo (qconfig.key_of path)
            (JObj (i1 ++ (k, v) :: i2)) i1 Hq Hi1
            (dict_set (qconfig.key_of path) (JObj []) cfg1) [])
  as (cfg2 & d2 & E2 & _); [apply dict_get_set_same|].
rewrite E2. cbn [bind foldM]. unfold qconfig.load_item at 1. rewrite Hq.
cbn [snd].
destruct v as [| | | |s| |]; try reflexivity. now destruct (Hv s).
Qed.

Lemma quabo_value_must_be_a_string_witness :
  @qconfig.__init__ sample_runtime sample_base16
    ([] ++ [("quabo_config.json"%string, line_of doc_hk)])
  = Raise AttributeError.
Proof.
apply (quabo_value_must_be_a_string sample_runtime sample_base16 [] []
         "quabo_config.json" (line_of doc_hk) [] [] []
         "QUABO_0"
         (JObj [("TEMP1"%string, JStr "21"); ("HVMON0"%string, JStr "-5")]));
  try reflexivity.
- constructor.
- discriminate.
Defined.

(** ** readpff: what holds for every decoder and file *)

(** X18. A sample count other than -1 makes [readpff] raise on a
    ph256 decoder, whatever the file: TypeError, as [f.read] is given
    the float [samples*self.datasize/self.bpp], or ZeroDivisionError
    when the bytes per pixel are 0.  This is for sample counts whose
    byte count a float can hold ([|samples*self.datasize| < 2^1023]);
    beyond that the division itself raises OverflowError, which
    [truediv] leaves out. *)
Theorem sample_count_always_raises (rt : PyRuntime) (pm : PixelMap)
  (self : datapff.t) (file : list byte) (samples skip : Z)
  (pixel : pixel_arg) (quabo : Z) (ver : string) (want_metadata : bool) :
  datapff.dp self = "ph256"%string ->
  samples <> -1 ->
  Z.abs (samples * datapff.datasize self) < 2 ^ 1023 ->
  datapff.readpff self file samples skip pixel quabo ver want_metadata
  = Raise (if datapff.bpp self =? 0 then ZeroDivisionError else TypeError).
Proof.
intros Hdp Hs _. unfold datapff.readpff, datapff.read_ph256. rewrite Hdp.
cbn [String.eqb Ascii.eqb Bool.eqb].
now rewrite (read_table_counted self file samples Hs).
Qed.

Lemma sample_count_always_raises_witness :
  @datapff.readpff sample_runtime sample_pixelmap sample_decoder
    sample_ph256_file 2 0 (PixelInt 3) 0 "qfb" true
  = Raise TypeError.
Proof.
apply (sample_count_always_raises sample_runtime sample_pixelmap
         sample_decoder sample_ph256_file 2 0 (PixelInt 3) 0 "qfb" true).
- reflexivity.
- discriminate.
- reflexivity.
Defined.

(** X19. A decoder [__init__] returned for a format tag other than
    ph256 never returns from its first [readpff]: the call raises,
    AttributeError when no pixel is selected. *)
Theorem other_formats_never_return (rt : PyRuntime) (pm : PixelMap)
  (fn : string) (self : datapff.t) (file : list byte) (samples skip : Z)
  (pixel : pixel_arg) (quabo : Z) (ver : string) (want_metadata : bool) :
  datapff.__init__ fn = Ok self ->
  datapff.dp self <> "ph256"%string ->
  (exists e, datapff.readpff self file samples skip pixel quabo ver
               want_metadata = Raise e)
  /\ datapff.readpff self file samples skip (PixelInt (-1)) quabo ver
       want_metadata = Raise AttributeError.
Proof.
intros E Hdp.
assert (Hdata : datapff.data self = None).
{ destruct (init_layout fn self E) as (t & v & b & m & q & ->). reflexivity. }
apply String.eqb_neq in Hdp. split.
- unfold datapff.readpff. rewrite Hdp. cbn [bind].
  destruct (datapff.pixel_selected pixel).
  + destruct (datapff.pixel_index pixel quabo ver) as [ind|e];
      [|now exists e].
    cbn [bind]. rewrite Hdata. now exists AttributeError.
  + cbn [bind]. rewrite Hdata. now exists AttributeError.
- now apply readpff_other_format.
Qed.

Lemma other_formats_never_return_witness :
  (exists e, @datapff.readpff sample_runtime sample_pixelmap
               (layout_of (sample_name "img8")
                  (mkDatetime 2022 5 11 23 38 29) "img8" 2 1 0)
               [] (-1) 0 (PixelList [300; 0]) 0 "qfb" false = Raise e)
  /\ @datapff.readpff sample_runtime sample_pixelmap
       (layout_of (sample_name "img8")
          (mkDatetime 2022 5 11 23 38 29) "img8" 2 1 0)
       [] (-1) 0 (PixelInt (-1)) 0 "qfb" false = Raise AttributeError.
Proof.
apply (other_formats_never_return sample_runtime sample_pixelmap
         (sample_name "img8")).
- reflexivity.
- discriminate.
Defined.

(** X20. The template is keyed by the canonical names and the loop by
    the names as written, so no metadata with a field TEMP1 or TEMP2 is
    ever returned: for a fresh ph256 decoder with two bytes per pixel
    and a file of whole records whose first metadata line is an object
    with such a field, [readpff(metadata=True)] raises KeyError for the
    first of them. *)
Theorem renamed_metadata_key_raises (rt : PyRuntime) (pm : PixelMap)
  (fn : string) (self : datapff.t) (recs : list (list byte))
  (skip : Z) (pixel : pixel_arg) (quabo : Z) (ver : string)
  (first : list byte) (rest : list (list byte))
  (i1 i2 : list (string * JSON)) (k : string) (v : JSON) :
  datapff.__init__ fn = Ok self ->
  datapff.dp self = "ph256"%string ->
  datapff.bpp self = 2 ->
  Forall (fun r => length r = Z.to_nat (datapff.datasize self)) recs ->
  splitlines (concat (map (firstn 122) recs)) = first :: rest ->
  json_loads_utf8 first = Some (JObj (i1 ++ (k, v) :: i2)) ->
  k = "TEMP1"%string \/ k = "TEMP2"%string ->
  (forall k', In k' (map fst i1) ->
              k' <> "TEMP1"%string /\ k' <> "TEMP2"%string) ->
  datapff.readpff self (concat recs) (-1) skip pixel quabo ver true
  = Raise (KeyError k).
Proof.
intros E Hdp Hbpp Hrecs Hlines Efirst Hk Hi1.
destruct (init_ph256 fn self E Hdp Hbpp) as (t & m & q & ->).
change (Z.to_nat (datapff.datasize (layout_of fn t "ph256" 2 m q)))
  with 636%nat in Hrecs.
change (layout_of fn t "ph256" 2 m q) with (ph256_object fn t m q [] None).
unfold datapff.readpff. cbn [ph256_object datapff.dp].
cbn [String.eqb Ascii.eqb Bool.eqb].
change (datapff.mk fn t "ph256" 2 m q 124 256 512 636 (Some int16) None
          [] None) with (ph256_object fn t m q [] None).
rewrite (read_ph256_metadata fn t m q [] None recs Hrecs).
rewrite Hlines. cbn [foldM].
now rewrite (md_line_raw_temp rt first i1 i2 k v Efirst Hk Hi1).
Qed.

Lemma renamed_metadata_key_raises_witness :
  @datapff.readpff sample_runtime sample_pixelmap sample_decoder
    (concat [sample_record text_temp 0; sample_record text_temp 7])
    (-1) 0 (PixelInt (-1)) 0 "qfb" true
  = Raise (KeyError "TEMP1").
Proof.
eapply (renamed_metadata_key_raises sample_runtime sample_pixelmap
          (sample_name "ph256") sample_decoder
          [sample_record text_temp 0; sample_record text_temp 7]
          0 (PixelInt (-1)) 0 "qfb" (list_byte_of_string doc_md_temp) _
          [] [("TEMP2"%string, JInt 2); ("X"%string, JInt 3)]
          "TEMP1" (JInt 1)); try reflexivity.
- repeat constructor.
- now left.
- intros k' [].
Defined.
